(** * Attendance system: gallery, matcher, ledger, reconciler and statistics

    A shallow embedding of [src/database.py], [src/face_recognition_utils.py]
    and [src/telegram_utils.py], with the form handlers of
    [src/pages/1_Student_Enrollment.py], [src/pages/2_Take_Attendance.py]
    and [src/pages/4_Settings.py] that call them.  The SQLite tables are lists of records kept
    in rowid order; the clock ([date.today()], [datetime.now()]), the OpenCV
    face detector and the chat transport are passed in explicitly. *)

From Stdlib Require Import List String ZArith QArith Bool Lia.
From Stdlib Require Import Ascii DecimalString Qabs Sorting.Sorted.
Import ListNotations.
Open Scope string_scope.

(* ------------------------------------------------------------------ *)
(** ** Tables *)

(** A stored [face_encoding] column: the BLOB written by [add_student] is
    read back either as [bytes] or as [str]; both hold JSON text. *)
Inductive blob :=
| BlobBytes (s : string)
| BlobText (s : string).

(** A face encoding: a numpy array of float64, kept as its list of entries. *)
Definition vector := list Q.

Record student := {
  s_id : Z;
  roll_no : string;
  name : string;
  branch : string;
  semester : Z;
  section : string;
  email : option string;
  face_encoding : option blob
}.

Record subject := {
  sub_id : Z;
  subject_code : string;
  subject_name : string;
  sub_branch : string;
  sub_semester : Z
}.

Record attendance := {
  a_id : Z;
  student_id : Z;
  subject_id : Z;
  a_date : string;
  a_time : string;
  status : string;
  synced : bool
}.

Record Db := {
  students : list student;
  subjects : list subject;
  attendance_tbl : list attendance;
  attendance_seq : Z   (* sqlite_sequence entry of the AUTOINCREMENT id *)
}.

Definition with_attendance (db : Db) (l : list attendance) (seq : Z) : Db :=
  {| students := students db; subjects := subjects db;
     attendance_tbl := l; attendance_seq := seq |}.

(** The PRIMARY KEY columns are unique. *)
Definition wf_db (db : Db) : Prop :=
  NoDup (map s_id (students db)) /\ NoDup (map sub_id (subjects db)) /\
  NoDup (map a_id (attendance_tbl db)).

(* ------------------------------------------------------------------ *)
(** ** [Database.mark_attendance] *)

Definition att_key_eqb (sid subid : Z) (d : string) (a : attendance) : bool :=
  Z.eqb (student_id a) sid && Z.eqb (subject_id a) subid && String.eqb (a_date a) d.

(** [UPDATE attendance SET time = ?, status = ?, synced = ? WHERE id = ?] *)
Definition update_attendance (id : Z) (t st : string) (sync : bool)
    (l : list attendance) : list attendance :=
  map (fun a => if Z.eqb (a_id a) id
                then {| a_id := a_id a; student_id := student_id a;
                        subject_id := subject_id a; a_date := a_date a;
                        a_time := t; status := st; synced := sync |}
                else a) l.

(** [mark_attendance(student_id, subject_id, status, sync)] run on the day
    [current_date] at [current_time]. *)
Definition mark_attendance (db : Db) (sid subid : Z) (st : string) (sync : bool)
    (current_date current_time : string) : Db * (bool * string) :=
  match find (att_key_eqb sid subid current_date) (attendance_tbl db) with
  | Some existing =>
      (with_attendance db
         (update_attendance (a_id existing) current_time st sync (attendance_tbl db))
         (attendance_seq db),
       (true, "Attendance marked successfully"))
  | None =>
      let id := (attendance_seq db + 1)%Z in
      (with_attendance db
         (app (attendance_tbl db)
          [{| a_id := id; student_id := sid; subject_id := subid;
              a_date := current_date; a_time := current_time;
              status := st; synced := sync |}]) id,
       (true, "Attendance marked successfully"))
  end.

(** One call of [mark_attendance] for a fixed key: the status and [sync]
    arguments and the clock time at which it runs. *)
Record mark_call := { mc_status : string; mc_sync : bool; mc_time : string }.

Fixpoint run_marks (db : Db) (sid subid : Z) (d : string) (calls : list mark_call)
    : Db :=
  match calls with
  | [] => db
  | c :: cs =>
      run_marks (fst (mark_attendance db sid subid (mc_status c) (mc_sync c) d (mc_time c)))
        sid subid d cs
  end.

Definition key_records (sid subid : Z) (d : string) (db : Db) : list attendance :=
  filter (att_key_eqb sid subid d) (attendance_tbl db).

(* ------------------------------------------------------------------ *)
(** ** Python results: a value or a raised exception *)

Inductive result (A : Type) :=
| Ok (a : A)
| Raised (msg : string).
Arguments Ok {A} a.
Arguments Raised {A} msg.

(* ------------------------------------------------------------------ *)
(** ** [Database.get_all_face_encodings] and [FaceRecognitionUtils] *)

(** How the identity store answers: [sqlite3.connect] raises (outside the
    [try]), the [SELECT] raises (inside the [try]), or the rows come back. *)
Inductive store_access :=
| ConnectError (msg : string)
| QueryError (msg : string)
| Reachable (rows : list student).

Record face_row := {
  fr_id : Z;
  fr_roll_no : string;
  fr_name : string;
  fr_encoding : vector
}.

(** [np.ones(128, dtype=np.float64)] *)
Definition ones128 : vector := repeat 1%Q 128.

(** [(top, right, bottom, left)] as built by [detect_faces]. *)
Definition location := (Z * Z * Z * Z)%type.

(** The in-memory gallery of a [FaceRecognitionUtils] object. *)
Record gallery := {
  known_face_encodings : list vector;
  known_face_names : list string;
  known_face_ids : list Z
}.

Section Faces.

(** [json.loads] on the stored text; [None] when it raises. *)
Variable json_loads : string -> option vector.

(** The decoding [try] of [get_all_face_encodings]: on any error the row gets
    the default encoding [np.ones(128)]. *)
Definition decode_face_encoding (b : blob) : vector :=
  match b with
  | BlobBytes s | BlobText s =>
      match json_loads s with Some v => v | None => ones128 end
  end.

Definition get_all_face_encodings (store : store_access) : result (list face_row) :=
  match store with
  | ConnectError e => Raised e
  | QueryError _ => Ok []
  | Reachable ss =>
      Ok (flat_map (fun s =>
            match face_encoding s with
            | None => []   (* WHERE face_encoding IS NOT NULL *)
            | Some b =>
                [{| fr_id := s_id s; fr_roll_no := roll_no s; fr_name := name s;
                    fr_encoding := decode_face_encoding b |}]
            end) ss)
  end.

(** [load_known_faces]: the three lists are reset and refilled, and the
    number of rows is returned. *)
Definition load_known_faces (g : gallery) (store : store_access)
    : gallery * result nat :=
  match get_all_face_encodings store with
  | Raised e => (g, Raised e)
  | Ok rows =>
      ({| known_face_encodings := map fr_encoding rows;
          known_face_names :=
            map (fun r => fr_name r ++ " (" ++ fr_roll_no r ++ ")") rows;
          known_face_ids := map fr_id rows |},
       Ok (List.length rows))
  end.

End Faces.

Section Detection.

(** The image type and OpenCV's Haar-cascade [detect_faces]. *)
Variable image : Type.
Variable detect_faces : image -> list location.

(** [recognize_faces(image, tolerance)]: the mock recogniser.  The gallery
    [g] (the object's state) and the tolerance are not consulted. *)
Definition recognize_faces (g : gallery) (img : image) (tolerance : Q)
    : list location * list string * list Z :=
  let face_locations := detect_faces img in
  (face_locations,
   map (fun _ => "Student") face_locations,
   map (fun _ => 1%Z) face_locations).

(** [get_face_encoding(image)]: an encoding or an error message. *)
Definition get_face_encoding (img : image) : option vector * option string :=
  let face_locations := detect_faces img in
  match face_locations with
  | [] => (None, Some "No face detected in the image")
  | _ =>
      if Nat.ltb 1 (List.length face_locations)
      then (None, Some "Multiple faces detected. Please provide an image with a single face.")
      else (Some ones128, None)
  end.

End Detection.

(** The matcher of the spec (section 4.2), for comparison with
    [recognize_faces]: nearest gallery entry under a distance [dist], accepted
    when the distance is at most the threshold; ties go to the first entry. *)
Definition spec_nearest_match (dist : vector -> vector -> Q)
    (g : list (Z * vector)) (observed : vector) (threshold : Q)
    : option Z * option Q :=
  let best := fold_left (fun acc e =>
                match acc with
                | None => Some (fst e, dist (snd e) observed)
                | Some (i, d) =>
                    let d' := dist (snd e) observed in
                    if Qlt_le_dec d' d then Some (fst e, d') else Some (i, d)
                end) g None in
  match best with
  | None => (None, None)
  | Some (i, d) => if Qle_bool d threshold then (Some i, Some d) else (None, Some d)
  end.

(** Distance [sum |x_i - y_i|]. *)
Fixpoint l1_dist (v w : vector) : Q :=
  match v, w with
  | x :: v', y :: w' => Qabs (x - y) + l1_dist v' w'
  | _, _ => 0
  end.

(* ------------------------------------------------------------------ *)
(** ** [Database.get_unsynced_attendance] *)

(** One row of the joined result, with the renamed columns. *)
Record urow := {
  r_id : Z;
  r_date : string;
  r_time : string;
  r_status : string;
  r_student_id : Z;
  r_roll_no : string;
  r_student_name : string;
  r_branch : string;
  r_semester : Z;
  r_section : string;
  r_subject_id : Z;
  r_subject_code : string;
  r_subject_name : string
}.

(** [a] comes strictly before [b] under [ORDER BY a.date DESC, a.time DESC]. *)
Definition before_desc (a b : attendance) : bool :=
  String.ltb (a_date b) (a_date a) ||
  (String.eqb (a_date a) (a_date b) && String.ltb (a_time b) (a_time a)).

(** A stable insertion sort; rows with equal (date, time) keep rowid order. *)
Fixpoint insert_desc (a : attendance) (l : list attendance) : list attendance :=
  match l with
  | [] => [a]
  | b :: l' => if before_desc b a then b :: insert_desc a l' else a :: b :: l'
  end.

Definition sort_desc (l : list attendance) : list attendance :=
  fold_right insert_desc [] l.

(** [attendance a JOIN students s ON a.student_id = s.id
    JOIN subjects sub ON a.subject_id = sub.id] for one attendance row. *)
Definition join_rows (db : Db) (a : attendance) : list urow :=
  flat_map (fun s =>
    if Z.eqb (s_id s) (student_id a) then
      flat_map (fun sub =>
        if Z.eqb (sub_id sub) (subject_id a) then
          [{| r_id := a_id a; r_date := a_date a; r_time := a_time a;
              r_status := status a; r_student_id := s_id s;
              r_roll_no := roll_no s; r_student_name := name s;
              r_branch := branch s; r_semester := semester s;
              r_section := section s; r_subject_id := sub_id sub;
              r_subject_code := subject_code sub;
              r_subject_name := subject_name sub |}]
        else []) (subjects db)
    else []) (students db).

(** [... WHERE a.synced = FALSE ORDER BY a.date DESC, a.time DESC] *)
Definition get_unsynced_attendance (db : Db) : list urow :=
  flat_map (fun a => if synced a then [] else join_rows db a)
    (sort_desc (attendance_tbl db)).

(** [Database.mark_attendance_synced(attendance_id)] *)
Definition set_synced (a : attendance) : attendance :=
  {| a_id := a_id a; student_id := student_id a; subject_id := subject_id a;
     a_date := a_date a; a_time := a_time a; status := status a;
     synced := true |}.

Definition mark_attendance_synced (db : Db) (attendance_id : Z) : Db :=
  with_attendance db
    (map (fun a => if Z.eqb (a_id a) attendance_id then set_synced a else a)
       (attendance_tbl db))
    (attendance_seq db).

(* ------------------------------------------------------------------ *)
(** ** [groupby(["date", "subject_id"])] *)

Definition gkey := (string * Z)%type.

Definition rkey (r : urow) : gkey := (r_date r, r_subject_id r).

Definition gkey_eqb (k k' : gkey) : bool :=
  String.eqb (fst k) (fst k') && Z.eqb (snd k) (snd k').

Definition gkey_ltb (k k' : gkey) : bool :=
  String.ltb (fst k) (fst k') ||
  (String.eqb (fst k) (fst k') && Z.ltb (snd k) (snd k')).

(** Insert a key into the sorted list of distinct keys. *)
Fixpoint insert_gkey (k : gkey) (l : list gkey) : list gkey :=
  match l with
  | [] => [k]
  | k' :: l' =>
      if gkey_eqb k k' then l
      else if gkey_ltb k k' then k :: l
      else k' :: insert_gkey k l'
  end.

Definition group_keys (rows : list urow) : list gkey :=
  fold_right (fun r acc => insert_gkey (rkey r) acc) [] rows.

(** The groups in ascending key order, each keeping the rows' order. *)
Definition groupby (rows : list urow) : list (gkey * list urow) :=
  map (fun k => (k, filter (fun r => gkey_eqb (rkey r) k) rows)) (group_keys rows).

(* ------------------------------------------------------------------ *)
(** ** [TelegramBot.send_attendance_report] and [sync_pending_attendance] *)

(** [str(n)] for a non-negative [int]. *)
Definition py_str_nat (n : nat) : string := NilZero.string_of_uint (Nat.to_uint n).

Section Reconciler.

(** The transport: render the report of a batch (with the current clock) and
    hand it to [send_message_sync], which answers [(success, error)].  The
    repository's [send_message_sync] is [demo_transport] below. *)
Variable deliver : list urow -> bool * string.

(** [send_attendance_report(attendance_data)]: the new database, the answer,
    and the batches handed to the transport (at most this one). *)
Definition send_attendance_report (db : Db) (attendance_data : list urow)
    : Db * (bool * string) * list (list urow) :=
  match attendance_data with
  | [] => (db, (false, "No attendance data to send"), [])
  | _ =>
      let '(success, error) := deliver attendance_data in
      let db' := if success
                 then fold_left (fun db r => mark_attendance_synced db (r_id r))
                        attendance_data db
                 else db in
      (db', (success, error), [attendance_data])
  end.

(** The local variables of the loop of [sync_pending_attendance], with the
    database and the log of transport calls. *)
Record sync_acc := {
  acc_db : Db;
  success_count : nat;
  error_count : nat;
  error_messages : list string;
  transport_calls : list (list urow)
}.

Fixpoint sync_loop (acc : sync_acc) (groups : list (gkey * list urow)) : sync_acc :=
  match groups with
  | [] => acc
  | (_, group) :: rest =>
      let '(db', (success, error), sent) := send_attendance_report (acc_db acc) group in
      sync_loop
        {| acc_db := db';
           success_count := if success then S (success_count acc) else success_count acc;
           error_count := if success then error_count acc else S (error_count acc);
           error_messages := if success then error_messages acc
                             else app (error_messages acc) [error];
           transport_calls := app (transport_calls acc) sent |} rest
  end.

Definition sync_pending_attendance (db : Db)
    : Db * (bool * string) * list (list urow) :=
  let unsynced_attendance := get_unsynced_attendance db in
  match unsynced_attendance with
  | [] => (db, (true, "No pending attendance to sync"), [])
  | _ =>
      let acc := sync_loop {| acc_db := db; success_count := 0; error_count := 0;
                              error_messages := []; transport_calls := [] |}
                   (groupby unsynced_attendance) in
      (acc_db acc,
       if Nat.eqb (error_count acc) 0
       then (true, "Successfully synced " ++ py_str_nat (success_count acc)
                   ++ " attendance reports")
       else (false, "Synced " ++ py_str_nat (success_count acc) ++ " reports, "
                    ++ py_str_nat (error_count acc) ++ " failed: "
                    ++ String.concat ", " (error_messages acc)),
       transport_calls acc)
  end.

End Reconciler.

(** [send_message_sync] as written: it always answers success. *)
Definition demo_transport (_ : list urow) : bool * string :=
  (true, "Message sent successfully (demo mode)").

(* ------------------------------------------------------------------ *)
(** ** [Database.get_attendance_stats] *)

(** The Python values passed as filters: [None], an [int] or a [str]. *)
Inductive pyval :=
| PNone
| PInt (z : Z)
| PStr (s : string).

(** [if x:] *)
Definition truthy (v : pyval) : bool :=
  match v with
  | PNone => false
  | PInt z => negb (Z.eqb z 0)
  | PStr s => negb (String.eqb s "")
  end.

(** Python [==], as used by [p in [branch, semester, section]]. *)
Definition py_eqb (v w : pyval) : bool :=
  match v, w with
  | PNone, PNone => true
  | PInt a, PInt b => Z.eqb a b
  | PStr a, PStr b => String.eqb a b
  | _, _ => false
  end.

(** [column = ?] with a bound value; the pages bind [str] to TEXT columns and
    [int] to INTEGER columns, other pairings are taken as unequal. *)
Definition sql_text_eq (col : string) (p : pyval) : bool :=
  match p with PStr s => String.eqb col s | _ => false end.

Definition sql_int_eq (col : Z) (p : pyval) : bool :=
  match p with PInt z => Z.eqb col z | _ => false end.

(** The SQL conditions of the function, one per filter. *)
Inductive cond := CDate | CSubject | CBranch | CSemester | CSection.

(** [conditions] and [params] as built at the top of the function. *)
Definition stat_conditions (date_filter subject_id_f branch_f semester_f section_f : pyval)
    : list (cond * pyval) :=
  List.concat [if truthy date_filter then [(CDate, date_filter)] else [];
          if truthy subject_id_f then [(CSubject, subject_id_f)] else [];
          if truthy branch_f then [(CBranch, branch_f)] else [];
          if truthy semester_f then [(CSemester, semester_f)] else [];
          if truthy section_f then [(CSection, section_f)] else []].

(** Binding parameters to the [?] placeholders: sqlite3 raises when the
    counts differ. *)
Definition bind_params (conds : list cond) (params : list pyval)
    : result (list (cond * pyval)) :=
  if Nat.eqb (List.length conds) (List.length params)
  then Ok (combine conds params)
  else Raised "Incorrect number of bindings supplied".

Definition eval_cond (a : attendance) (s : student) (cv : cond * pyval) : bool :=
  let '(c, v) := cv in
  match c with
  | CDate => sql_text_eq (a_date a) v
  | CSubject => sql_int_eq (subject_id a) v
  | CBranch => sql_text_eq (branch s) v
  | CSemester => sql_int_eq (semester s) v
  | CSection => sql_text_eq (section s) v
  end.

(** The same, on a query over [students s] only. *)
Definition eval_student_cond (s : student) (cv : cond * pyval) : bool :=
  let '(c, v) := cv in
  match c with
  | CBranch => sql_text_eq (branch s) v
  | CSemester => sql_int_eq (semester s) v
  | CSection => sql_text_eq (section s) v
  | _ => true
  end.

Definition count_distinct (l : list Z) : nat := List.length (nodup Z.eq_dec l).

Record stats := { total : Z; present : Z; absent : Z }.

Definition zero_stats : stats := {| total := 0; present := 0; absent := 0 |}.

(** [SELECT COUNT(DISTINCT s.id) FROM students s WHERE ...] *)
Definition count_students (db : Db) (bound : list (cond * pyval)) : nat :=
  count_distinct (map s_id (filter (fun s => forallb (eval_student_cond s) bound)
                              (students db))).

(** [SELECT COUNT(DISTINCT a.student_id) FROM attendance a JOIN students s
    ON a.student_id = s.id WHERE ... AND a.status = 'present'] *)
Definition count_present (db : Db) (bound : list (cond * pyval)) : nat :=
  count_distinct
    (flat_map (fun a =>
       flat_map (fun s =>
         if Z.eqb (s_id s) (student_id a) && forallb (eval_cond a s) bound
            && String.eqb (status a) "present"
         then [student_id a] else []) (students db))
     (attendance_tbl db)).

(** [get_attendance_stats(date_filter, subject_id, branch, semester, section)];
    the two per-branch and per-subject frames are left out: they run the
    present query's conditions and parameters again and do not feed the three
    counts.  Any exception yields the zero counts. *)
Definition get_attendance_stats (db : Db)
    (date_filter subject_id_f branch_f semester_f section_f : pyval) : stats :=
  let cp := stat_conditions date_filter subject_id_f branch_f semester_f section_f in
  let conditions := map fst cp in
  let params := map snd cp in
  let student_conditions :=
    List.concat [if truthy branch_f then [CBranch] else [];
            if truthy semester_f then [CSemester] else [];
            if truthy section_f then [CSection] else []] in
  let total_params :=
    filter (fun p => existsb (py_eqb p) [branch_f; semester_f; section_f]) params in
  match bind_params student_conditions total_params with
  | Raised _ => zero_stats
  | Ok total_bound =>
      let total_students := Z.of_nat (count_students db total_bound) in
      match bind_params conditions params with
      | Raised _ => zero_stats
      | Ok bound =>
          let present_students := Z.of_nat (count_present db bound) in
          {| total := total_students; present := present_students;
             absent := total_students - present_students |}
      end
  end.

(** The statistics as section 4.5 of the spec words them: [total] counts the
    identities passing the organisational filters, [present] the distinct
    identities with a present record passing all filters. *)
Definition spec_stats (db : Db)
    (date_filter subject_id_f branch_f semester_f section_f : pyval) : stats :=
  let cp := stat_conditions date_filter subject_id_f branch_f semester_f section_f in
  let org := filter (fun cv => match fst cv with
                               | CBranch | CSemester | CSection => true
                               | _ => false end) cp in
  let t := Z.of_nat (count_students db org) in
  let p := Z.of_nat (count_present db cp) in
  {| total := t; present := p; absent := t - p |}.

(* ------------------------------------------------------------------ *)
(** ** Vocabulary of the statements *)

(** The key [(date, subject_id)] of the rows an attendance record yields. *)
Definition akey (a : attendance) : gkey := (a_date a, subject_id a).

(** The batches a reconciliation run hands to [send_attendance_report]. *)
Definition pending_batches (db : Db) : list (list urow) :=
  map snd (groupby (get_unsynced_attendance db)).

(** The effect of [mark_attendance_synced] for every id of [ids]. *)
Definition sync_mark (ids : list Z) (a : attendance) : attendance :=
  if existsb (Z.eqb (a_id a)) ids then set_synced a else a.

(** The ids of the rows of the batches whose delivery was confirmed. *)
Definition succeeded_ids (deliver : list urow -> bool * string)
    (groups : list (gkey * list urow)) : list Z :=
  flat_map (fun kg => match snd kg with
                      | [] => []
                      | g => if fst (deliver g) then map r_id g else []
                      end) groups.

(** The error of each batch whose delivery failed. *)
Definition failed_reasons (deliver : list urow -> bool * string)
    (groups : list (gkey * list urow)) : list string :=
  flat_map (fun kg => match snd kg with
                      | [] => ["No attendance data to send"]
                      | g => if fst (deliver g) then [] else [snd (deliver g)]
                      end) groups.

(** The batches handed to the transport. *)
Definition delivered_batches (groups : list (gkey * list urow)) : list (list urow) :=
  flat_map (fun kg => match snd kg with [] => [] | g => [g] end) groups.

(* ------------------------------------------------------------------ *)
(** ** Sample tables *)

Definition empty_db : Db :=
  {| students := []; subjects := []; attendance_tbl := []; attendance_seq := 0 |}.

(** A stored record for student 1, subject 1 on 2024-01-10, already synced. *)
Definition synced_db : Db :=
  {| students := []; subjects := [];
     attendance_tbl := [{| a_id := 1; student_id := 1; subject_id := 1;
                           a_date := "2024-01-10"; a_time := "09:00:00";
                           status := "present"; synced := true |}];
     attendance_seq := 1 |}.

Definition one_entry_gallery : gallery :=
  {| known_face_encodings := [[0%Q]]; known_face_names := ["S1 (R1)"];
     known_face_ids := [5%Z] |}.

Definition one_face : list location := [(10, 60, 60, 10)%Z].

Definition empty_gallery : gallery :=
  {| known_face_encodings := []; known_face_names := []; known_face_ids := [] |}.

Definition has_encoding (s : student) : bool :=
  match face_encoding s with Some _ => true | None => false end.

Definition sample_student (i : Z) (roll nm : string) : student :=
  {| s_id := i; roll_no := roll; name := nm; branch := "CSE"; semester := 3;
     section := "A"; email := None; face_encoding := None |}.

Definition sample_subject (i : Z) (code : string) : subject :=
  {| sub_id := i; subject_code := code; subject_name := code; sub_branch := "CSE";
     sub_semester := 3 |}.

Definition pending_record (i sid subid : Z) : attendance :=
  {| a_id := i; student_id := sid; subject_id := subid; a_date := "2024-01-10";
     a_time := "09:00:00"; status := "present"; synced := false |}.

(** Two pending records on 2024-01-10: student 1 in ACT1 (subject 1) and
    student 2 in ACT2 (subject 2). *)
Definition two_subject_db : Db :=
  {| students := [sample_student 1 "R1" "S1"; sample_student 2 "R2" "S2"];
     subjects := [sample_subject 1 "ACT1"; sample_subject 2 "ACT2"];
     attendance_tbl := [pending_record 1 1 1; pending_record 2 2 2];
     attendance_seq := 2 |}.

(** A transport that fails for the batch of subject 1 only. *)
Definition act1_down_transport (g : list urow) : bool * string :=
  if existsb (fun r => Z.eqb (r_subject_id r) 1) g
  then (false, "Telegram request timed out")
  else (true, "Message sent").

(** Three students of semester 3; students 1 and 2 are present in
    subject 3 on 2024-01-10. *)
Definition stats_db : Db :=
  {| students := [sample_student 1 "R1" "S1"; sample_student 2 "R2" "S2";
                  sample_student 3 "R3" "S3"];
     subjects := [sample_subject 3 "ACT1"];
     attendance_tbl := [pending_record 1 1 3; pending_record 2 2 3];
     attendance_seq := 2 |}.

(* ------------------------------------------------------------------ *)
(** ** The whole database: [faculty], [settings] and the id counters *)

(** A row of [settings].  Its AUTOINCREMENT id and [updated_at] are read by
    no function and are left out. *)
Record setting_row := { set_key : string; set_value : string }.

(** A row of [faculty]; [created_at] is left out. *)
Record faculty_row := {
  f_id : Z;
  faculty_id : string;
  f_name : string;
  f_email : option string;
  f_password : string;
  is_admin : bool
}.

(** The database file: the three tables of [Db], the [sqlite_sequence]
    entries of [students] and [faculty], and the [faculty] and [settings]
    tables. *)
Record tables := {
  tdb : Db;
  students_seq : Z;
  faculty_tbl : list faculty_row;
  faculty_seq : Z;
  settings_tbl : list setting_row
}.

Definition with_students (t : tables) (ss : list student) (seq : Z) : tables :=
  {| tdb := {| students := ss; subjects := subjects (tdb t);
               attendance_tbl := attendance_tbl (tdb t);
               attendance_seq := attendance_seq (tdb t) |};
     students_seq := seq; faculty_tbl := faculty_tbl t;
     faculty_seq := faculty_seq t; settings_tbl := settings_tbl t |}.

Definition with_settings (t : tables) (l : list setting_row) : tables :=
  {| tdb := tdb t; students_seq := students_seq t; faculty_tbl := faculty_tbl t;
     faculty_seq := faculty_seq t; settings_tbl := l |}.

Definition with_faculty (t : tables) (l : list faculty_row) (seq : Z) : tables :=
  {| tdb := tdb t; students_seq := students_seq t; faculty_tbl := l;
     faculty_seq := seq; settings_tbl := settings_tbl t |}.

(* ------------------------------------------------------------------ *)
(** ** [Database.create_tables] *)

(** [INSERT OR IGNORE INTO settings (key, value) VALUES (?, ?)]: [key] is
    UNIQUE, so an existing row is kept as it is. *)
Definition insert_or_ignore_setting (k v : string) (l : list setting_row)
    : list setting_row :=
  if existsb (fun r => String.eqb (set_key r) k) l then l
  else app l [{| set_key := k; set_value := v |}].

(** [INSERT OR IGNORE INTO faculty (faculty_id, name, password, is_admin)]:
    [faculty_id] is UNIQUE. *)
Definition insert_or_ignore_faculty (fid nm pw : string) (adm : bool) (t : tables)
    : tables :=
  if existsb (fun f => String.eqb (faculty_id f) fid) (faculty_tbl t) then t
  else
    let id := (faculty_seq t + 1)%Z in
    with_faculty t
      (app (faculty_tbl t)
         [{| f_id := id; faculty_id := fid; f_name := nm; f_email := None;
             f_password := pw; is_admin := adm |}]) id.

(** The tables themselves exist already ([CREATE TABLE IF NOT EXISTS]); the
    default rows are added when missing. *)
Definition create_tables (t : tables) : tables :=
  let l := insert_or_ignore_setting "telegram_bot_token" "" (settings_tbl t) in
  let l := insert_or_ignore_setting "telegram_chat_id" "" l in
  let l := insert_or_ignore_setting "attendance_threshold" "0.6" l in
  let l := insert_or_ignore_setting "admin_password" "admin123" l in
  insert_or_ignore_faculty "admin" "Administrator" "admin123" true (with_settings t l).

(** A database file that does not exist yet. *)
Definition no_tables : tables :=
  {| tdb := empty_db; students_seq := 0; faculty_tbl := []; faculty_seq := 0;
     settings_tbl := [] |}.

(* ------------------------------------------------------------------ *)
(** ** [get_setting], [update_setting] and [verify_credentials] *)

(** [SELECT value FROM settings WHERE key = ?] and [fetchone()]. *)
Definition get_setting (t : tables) (key : string) : option string :=
  option_map set_value (find (fun r => String.eqb (set_key r) key) (settings_tbl t)).

(** [UPDATE settings SET value = ? ... WHERE key = ?]; the answer is [True]
    whether a row matched or not. *)
Definition update_setting (t : tables) (key value : string) : tables * bool :=
  (with_settings t
     (map (fun r => if String.eqb (set_key r) key
                    then {| set_key := set_key r; set_value := value |}
                    else r) (settings_tbl t)),
   true).

(** The dictionary [{'id', 'name', 'is_admin'}]. *)
Record faculty_info := { fi_id : Z; fi_name : string; fi_is_admin : bool }.

(** [SELECT id, name, is_admin FROM faculty WHERE faculty_id = ? AND
    password = ?] and [fetchone()]. *)
Definition verify_credentials (t : tables) (fid password : string)
    : option faculty_info :=
  match find (fun f => String.eqb (faculty_id f) fid && String.eqb (f_password f) password)
             (faculty_tbl t) with
  | Some f => Some {| fi_id := f_id f; fi_name := f_name f; fi_is_admin := is_admin f |}
  | None => None
  end.

(** The submit branch of the "Update Admin Password" form of the settings
    page, with the message it shows ([true] for [st.success]). *)
Definition update_admin_password (t : tables) (new_admin_password confirm_password : string)
    : tables * (bool * string) :=
  if negb (String.eqb new_admin_password confirm_password)
  then (t, (false, "Passwords do not match."))
  else if String.eqb new_admin_password ""
  then (t, (false, "Password cannot be empty."))
  else (fst (update_setting t "admin_password" new_admin_password),
        (true, "Admin password updated successfully.")).

(* ------------------------------------------------------------------ *)
(** ** Student rows: [add_student], [update_student], [delete_student],
    [get_student] and [get_students] *)

(** The dictionary returned by [get_student]. *)
Record student_info := {
  i_id : Z;
  i_roll_no : string;
  i_name : string;
  i_branch : string;
  i_semester : Z;
  i_section : string;
  i_email : option string;
  i_face_encoding : option vector
}.


Definition blob_text (b : blob) : string := match b with BlobBytes s | BlobText s => s end.




(** [conditions] and [params] of [get_students]. *)
Definition student_conditions (branch_f semester_f section_f : pyval) : list (cond * pyval) :=
  List.concat [if truthy branch_f then [(CBranch, branch_f)] else [];
               if truthy semester_f then [(CSemester, semester_f)] else [];
               if truthy section_f then [(CSection, section_f)] else []].


(** [delete_student(student_id)]: [DELETE FROM students WHERE id = ?].  The
    foreign keys of [attendance] are not enforced (sqlite3 leaves
    [PRAGMA foreign_keys] off), so the attendance rows stay. *)
Definition delete_student (t : tables) (sid : Z) : tables * (bool * string) :=
  (with_students t (filter (fun s => negb (Z.eqb (s_id s) sid)) (students (tdb t)))
     (students_seq t),
   (true, "Student deleted successfully")).

Section Students.

(** [json.loads] on the stored text ([None] when it raises) and
    [json.dumps(face_encoding.tolist())]. *)
Variable json_loads : string -> option vector.
Variable json_dumps : vector -> string.

(** [json.dumps(face_encoding.tolist()).encode()] *)
Definition encode_face_encoding (v : vector) : blob := BlobBytes (json_dumps v).

(** [add_student(...)]: [(True, lastrowid)] or [(False, message)].  The
    only constraint a call can break is [roll_no TEXT UNIQUE]. *)
Definition add_student (t : tables) (roll nm br : string) (sem : Z) (sec : string)
    (em : option string) (enc : option vector) : tables * (bool * pyval) :=
  let face_encoding_binary := option_map encode_face_encoding enc in
  let ss := students (tdb t) in
  if existsb (fun s => String.eqb (roll_no s) roll) ss
  then (t, (false, PStr "Roll number already exists"))
  else
    let id := (students_seq t + 1)%Z in
    (with_students t
       (app ss [{| s_id := id; roll_no := roll; name := nm; branch := br;
                   semester := sem; section := sec; email := em;
                   face_encoding := face_encoding_binary |}]) id,
     (true, PInt id)).

(** [update_student(...)]: the face encoding column is written only when an
    encoding is passed.  The UNIQUE constraint fails only when a row is
    updated and another row has the new roll number; an id with no row
    updates nothing. *)
Definition update_student (t : tables) (sid : Z) (roll nm br : string) (sem : Z)
    (sec : string) (em : option string) (enc : option vector)
    : tables * (bool * string) :=
  let ss := students (tdb t) in
  let upd s :=
    if Z.eqb (s_id s) sid
    then {| s_id := s_id s; roll_no := roll; name := nm; branch := br;
            semester := sem; section := sec; email := em;
            face_encoding := match enc with
                             | Some v => Some (encode_face_encoding v)
                             | None => face_encoding s
                             end |}
    else s in
  if existsb (fun s => Z.eqb (s_id s) sid) ss &&
     existsb (fun s => negb (Z.eqb (s_id s) sid) && String.eqb (roll_no s) roll) ss
  then (t, (false, "Roll number already exists"))
  else (with_students t (map upd ss) (students_seq t),
        (true, "Student updated successfully")).

(** [get_student(student_id)]: the stored encoding is decoded when the
    column is truthy (not NULL, not empty), with [np.ones(128)] when the
    decoding raises. *)
Definition get_student (t : tables) (sid : Z) : option student_info :=
  match find (fun s => Z.eqb (s_id s) sid) (students (tdb t)) with
  | None => None
  | Some s =>
      Some {| i_id := s_id s; i_roll_no := roll_no s; i_name := name s;
              i_branch := branch s; i_semester := semester s;
              i_section := section s; i_email := email s;
              i_face_encoding :=
                match face_encoding s with
                | Some b => if String.eqb (blob_text b) "" then None
                            else Some (decode_face_encoding json_loads b)
                | None => None
                end |}
  end.

End Students.

(* ------------------------------------------------------------------ *)
(** ** [Database.get_attendance] *)

(** The filters of [get_attendance]. *)
Inductive acond := ADate | ASubject | AStudent | ABranch | ASemester | ASection.

Definition attendance_conditions
    (date_filter subject_id_f student_id_f branch_f semester_f section_f : pyval)
    : list (acond * pyval) :=
  List.concat [if truthy date_filter then [(ADate, date_filter)] else [];
               if truthy subject_id_f then [(ASubject, subject_id_f)] else [];
               if truthy student_id_f then [(AStudent, student_id_f)] else [];
               if truthy branch_f then [(ABranch, branch_f)] else [];
               if truthy semester_f then [(ASemester, semester_f)] else [];
               if truthy section_f then [(ASection, section_f)] else []].

(** A condition on a joined row; [a.subject_id] and [a.student_id] equal
    [sub.id] and [s.id] there. *)
Definition eval_acond (r : urow) (cv : acond * pyval) : bool :=
  let '(c, v) := cv in
  match c with
  | ADate => sql_text_eq (r_date r) v
  | ASubject => sql_int_eq (r_subject_id r) v
  | AStudent => sql_int_eq (r_student_id r) v
  | ABranch => sql_text_eq (r_branch r) v
  | ASemester => sql_int_eq (r_semester r) v
  | ASection => sql_text_eq (r_section r) v
  end.

(** The rows of the frame: the joined columns with [a.synced], in the order
    [ORDER BY a.date DESC, a.time DESC]. *)
Definition get_attendance (db : Db)
    (date_filter subject_id_f student_id_f branch_f semester_f section_f : pyval)
    : list (urow * bool) :=
  let conds := attendance_conditions date_filter subject_id_f student_id_f
                 branch_f semester_f section_f in
  flat_map (fun a => map (fun r => (r, synced a))
                         (filter (fun r => forallb (eval_acond r) conds) (join_rows db a)))
    (sort_desc (attendance_tbl db)).


(* ------------------------------------------------------------------ *)
(** ** [TelegramBot]: configuration checks *)

(** [str.isspace] on the code points below 256. *)
Definition py_isspace (c : ascii) : bool :=
  let n := nat_of_ascii c in
  ((9 <=? n) && (n <=? 13))%nat || ((28 <=? n) && (n <=? 32))%nat ||
  (n =? 133)%nat || (n =? 160)%nat.

Fixpoint lstrip_chars (l : list ascii) : list ascii :=
  match l with
  | c :: l' => if py_isspace c then lstrip_chars l' else l
  | [] => []
  end.

(** [s.strip()] *)
Definition py_strip (s : string) : string :=
  string_of_list_ascii (rev (lstrip_chars (rev (lstrip_chars (list_ascii_of_string s))))).

(** [not x or x.strip() == ""] for a [str] or [None]. *)
Definition not_or_blank (o : option string) : bool :=
  match o with
  | None => true
  | Some s => String.eqb s "" || String.eqb (py_strip s) ""
  end.

(** [not x] for a [str] or [None]. *)
Definition py_not_str (o : option string) : bool :=
  match o with None => true | Some s => String.eqb s "" end.

(** The attributes [bot_token] and [chat_id]; [self.bot] is always [None]
    and is left out. *)
Record telegram_bot := { bot_token : option string; chat_id : option string }.

(** [TelegramBot()]: [Database()] runs [create_tables], then the two
    settings are read. *)
Definition telegram_bot_init (t : tables) : tables * telegram_bot :=
  let t' := create_tables t in
  (t', {| bot_token := get_setting t' "telegram_bot_token";
          chat_id := get_setting t' "telegram_chat_id" |}).

(** [send_message(message)] (async). *)
Definition send_message (b : telegram_bot) (message : string) : bool * string :=
  if py_not_str (bot_token b) || not_or_blank (chat_id b)
  then (false, "Telegram bot not configured")
  else (true, "Message sent successfully (demo mode)").

(** [send_message_sync(message)] *)
Definition send_message_sync (b : telegram_bot) (message : string) : bool * string :=
  (true, "Message sent successfully (demo mode)").

(** [test_connection()]; [message] is the text rendered with the clock. *)
Definition test_connection (b : telegram_bot) (message : string) : bool * string :=
  if not_or_blank (bot_token b) then (false, "Bot token is not configured")
  else if not_or_blank (chat_id b) then (false, "Chat ID is not configured")
  else send_message_sync b message.

(** [update_settings(bot_token, chat_id)]: the database, the bot's
    attributes and the answer. *)
Definition update_settings (t : tables) (b : telegram_bot) (new_token new_chat : option string)
    : tables * telegram_bot * (bool * string) :=
  let finish t b :=
    if negb (not_or_blank (bot_token b))
    then (t, b, (true, "Settings updated successfully (demo mode)"))
    else (t, b, (true, "Bot token cleared")) in
  let after_token t b :=
    match new_chat with
    | Some c =>
        if String.eqb c "" then finish t b
        else let '(t', success) := update_setting t "telegram_chat_id" c in
             if success then finish t' {| bot_token := bot_token b; chat_id := Some c |}
             else (t', b, (false, "Failed to update chat ID"))
    | None => finish t b
    end in
  match new_token with
  | Some tok =>
      if String.eqb tok "" then after_token t b
      else let '(t', success) := update_setting t "telegram_bot_token" tok in
           if success then after_token t' {| bot_token := Some tok; chat_id := chat_id b |}
           else (t', b, (false, "Failed to update bot token"))
  | None => after_token t b
  end.

(* ------------------------------------------------------------------ *)
(** ** The pages: enrollment and attendance from an uploaded photo *)

(** [str(x)] for the second component of [add_student]'s answer. *)
Definition py_str_val (v : pyval) : string :=
  match v with
  | PNone => "None"
  | PStr s => s
  | PInt z => if (z <? 0)%Z then "-" ++ py_str_nat (Z.to_nat (- z))
              else py_str_nat (Z.to_nat z)
  end.

Section Pages.

Variable image : Type.
Variable detect_faces : image -> list location.
Variable json_dumps : vector -> string.

(** The submit branch of the enrollment form of [1_Student_Enrollment.py]:
    the new database and the message shown ([true] for [st.success]).
    [face_image] is the decoded upload or the webcam capture ([None] when
    there is none); the gallery reload after a success is not modelled. *)
Definition enroll_student (t : tables) (roll nm br : string) (sem : Z) (sec : string)
    (em : option string) (face_image : option image) : tables * (bool * string) :=
  if String.eqb roll "" || String.eqb nm ""
  then (t, (false, "Roll Number and Student Name are required."))
  else
    match face_image with
    | None => (t, (false, "No face image provided. Please upload an image or capture from webcam."))
    | Some img =>
        let '(enc, error) := get_face_encoding image detect_faces img in
        match error with
        | Some e => if String.eqb e "" then
                      match add_student json_dumps t roll nm br sem sec em enc with
                      | (t', (true, _)) =>
                          (t', (true, "Successfully enrolled student: " ++ nm ++ " (" ++ roll ++ ")"))
                      | (t', (false, result)) =>
                          (t', (false, "Error enrolling student: " ++ py_str_val result))
                      end
                    else (t, (false, e))
        | None =>
            match add_student json_dumps t roll nm br sem sec em enc with
            | (t', (true, _)) =>
                (t', (true, "Successfully enrolled student: " ++ nm ++ " (" ++ roll ++ ")"))
            | (t', (false, result)) =>
                (t', (false, "Error enrolling student: " ++ py_str_val result))
            end
        end
    end.

(** The loop of the "Upload Image" mode of [2_Take_Attendance.py] over
    [zip(face_ids, face_names)]; [clock i] is the [(date, time)] seen by the
    [i]-th [mark_attendance] call. *)
Fixpoint mark_recognized (db : Db) (subj : Z) (clock : nat -> string * string) (i : nat)
    (faces : list (Z * string)) (recognized_count unknown_count : nat)
    : Db * (nat * nat) :=
  match faces with
  | [] => (db, (recognized_count, unknown_count))
  | (face_id, _) :: rest =>
      if negb (Z.eqb face_id 0) then
        let '(db', (success, _)) :=
          mark_attendance db face_id subj "present" false (fst (clock i)) (snd (clock i)) in
        mark_recognized db' subj clock (S i) rest
          (if success then S recognized_count else recognized_count) unknown_count
      else mark_recognized db subj clock i rest recognized_count (S unknown_count)
  end.

(** The "Upload Image" mode: [None] when no subject is selected (the page
    shows "Please select a subject before taking attendance."), otherwise
    the ledger and the two counts shown. *)
Definition take_attendance_upload (db : Db) (g : gallery) (img : image)
    (recognition_threshold : Q) (selected_subject_id : option Z)
    (clock : nat -> string * string) : option (Db * (nat * nat)) :=
  match selected_subject_id with
  | None => None
  | Some subj =>
      if Z.eqb subj 0 then None
      else
        let '(face_locations, face_names, face_ids) :=
          recognize_faces image detect_faces g img recognition_threshold in
        Some (mark_recognized db subj clock 0 (combine face_ids face_names) 0 0)
  end.

End Pages.

(* ------------------------------------------------------------------ *)
(** ** Invariants of the tables *)

(** The AUTOINCREMENT ids are unique and not above the sequence entry. *)
Definition ledger_ok (db : Db) : Prop :=
  NoDup (map a_id (attendance_tbl db)) /\
  Forall (fun a => (a_id a <= attendance_seq db)%Z) (attendance_tbl db).

(** The same for [students], with the UNIQUE roll numbers. *)
Definition students_ok (t : tables) : Prop :=
  NoDup (map s_id (students (tdb t))) /\ NoDup (map roll_no (students (tdb t))) /\
  Forall (fun s => (s_id s <= students_seq t)%Z) (students (tdb t)).

(* ------------------------------------------------------------------ *)
(** ** More sample data *)

(** An encoder and decoder of one vector only, enough to exercise a
    round trip. *)
Definition dumps_one (v : vector) : string := "[1.0]".
Definition loads_one (s : string) : option vector :=
  if String.eqb s "[1.0]" then Some [1%Q] else None.

Definition student_tables : tables :=
  with_students (create_tables no_tables)
    [sample_student 1 "R1" "S1"; sample_student 2 "R2" "S2"] 2.

(* ------------------------------------------------------------------ *)
(** ** Orders, defaults and call sequences used in the statements *)


(** The four rows of [INSERT OR IGNORE INTO settings] in [create_tables]. *)
Definition default_settings : list (string * string) :=
  [("telegram_bot_token", ""); ("telegram_chat_id", "");
   ("attendance_threshold", "0.6"); ("admin_password", "admin123")].

Definition default_setting (k : string) : option string :=
  option_map snd (find (fun kv => String.eqb (fst kv) k) default_settings).


(** The [mark_attendance] calls of [mark_recognized] for the faces
    [i, ..., i + n - 1], all with id 1. *)
Definition upload_calls (clock : nat -> string * string) (i n : nat) : list mark_call :=
  map (fun j => {| mc_status := "present"; mc_sync := false; mc_time := snd (clock j) |})
    (seq i n).

(** The ledger of [two_subject_db] in the tables of the application. *)
Definition ledger_tables : tables :=
  {| tdb := two_subject_db; students_seq := 2; faculty_tbl := []; faculty_seq := 0;
     settings_tbl := [] |}.

(* ================================================================== *)
(** * Proofs *)

(* ------------------------------------------------------------------ *)
(** ** List helpers *)

Lemma filter_map_preserve {A : Type} (p : A -> bool) (f : A -> A) (l : list A) :
  (forall x, p (f x) = p x) -> filter p (map f l) = map f (filter p l).
Proof.
  intros Hp; induction l as [|x l IH]; simpl; [reflexivity|].
  rewrite Hp; destruct (p x); simpl; rewrite IH; reflexivity.
Qed.

Lemma find_map_preserve {A : Type} (p : A -> bool) (f : A -> A) (l : list A) :
  (forall x, p (f x) = p x) -> find p (map f l) = option_map f (find p l).
Proof.
  intros Hp; induction l as [|x l IH]; simpl; [reflexivity|].
  rewrite Hp; destruct (p x); [reflexivity | exact IH].
Qed.

Lemma filter_none {A : Type} (p : A -> bool) (l : list A) :
  find p l = None -> filter p l = [].
Proof.
  induction l as [|x l IH]; simpl; [reflexivity|].
  destruct (p x); [discriminate | exact IH].
Qed.

Lemma find_app_none {A : Type} (p : A -> bool) (l l' : list A) :
  find p l = None -> find p (app l l') = find p l'.
Proof.
  induction l as [|x l IH]; simpl; [reflexivity|].
  destruct (p x); [discriminate | exact IH].
Qed.

Lemma map_const_repeat {A B : Type} (c : B) (l : list A) :
  map (fun _ => c) l = repeat c (List.length l).
Proof. induction l as [|x l IH]; simpl; [reflexivity | now rewrite IH]. Qed.

(* ------------------------------------------------------------------ *)
(** ** The ledger *)

Lemma att_key_eqb_update sid subid d id t st sync a :
  att_key_eqb sid subid d
    (if Z.eqb (a_id a) id
     then {| a_id := a_id a; student_id := student_id a;
             subject_id := subject_id a; a_date := a_date a;
             a_time := t; status := st; synced := sync |}
     else a) = att_key_eqb sid subid d a.
Proof. destruct (Z.eqb (a_id a) id); reflexivity. Qed.

(** What one call does to the records of its key, when there was at most
    one. *)
Lemma mark_attendance_key_records db sid subid st sync d t :
  (List.length (key_records sid subid d db) <= 1)%nat ->
  exists r, key_records sid subid d (fst (mark_attendance db sid subid st sync d t)) = [r]
            /\ status r = st /\ a_time r = t /\ synced r = sync.
Proof.
  unfold key_records, mark_attendance; intros Hle.
  destruct (find (att_key_eqb sid subid d) (attendance_tbl db)) as [e|] eqn:Hf;
    simpl.
  - apply find_some in Hf as [Hin He].
    assert (Hfe : filter (att_key_eqb sid subid d) (attendance_tbl db) = [e]).
    { assert (Hin' : In e (filter (att_key_eqb sid subid d) (attendance_tbl db)))
        by (apply filter_In; auto).
      destruct (filter (att_key_eqb sid subid d) (attendance_tbl db))
        as [|x [|y l]] eqn:E; simpl in *.
      - contradiction.
      - destruct Hin' as [-> | []]; reflexivity.
      - lia. }
    unfold update_attendance; rewrite filter_map_preserve by apply att_key_eqb_update.
    rewrite Hfe; simpl; rewrite Z.eqb_refl.
    eexists; split; [reflexivity | simpl; auto].
  - rewrite filter_app, (filter_none _ _ Hf); simpl.
    unfold att_key_eqb at 1; simpl; rewrite !Z.eqb_refl, String.eqb_refl; simpl.
    eexists; split; [reflexivity | simpl; auto].
Qed.

Lemma run_marks_app db sid subid d calls calls' :
  run_marks db sid subid d (app calls calls') =
  run_marks (run_marks db sid subid d calls) sid subid d calls'.
Proof.
  revert db; induction calls as [|c cs IH]; intros db; simpl; [reflexivity | apply IH].
Qed.

(** Claim C1. For every sequence of [mark_attendance] calls on one
    (student_id, subject_id, date) key, starting from a ledger with at most
    one record for that key, the ledger ends with exactly one record for the
    key, carrying the status and time of the last call. *)
Theorem mark_attendance_last_call_wins (db : Db) (sid subid : Z) (d : string)
    (calls : list mark_call) (last : mark_call) :
  (List.length (key_records sid subid d db) <= 1)%nat ->
  exists r, key_records sid subid d (run_marks db sid subid d (app calls [last])) = [r]
            /\ status r = mc_status last /\ a_time r = mc_time last.
Proof.
  revert db; induction calls as [|c cs IH]; intros db Hle; simpl.
  - destruct (mark_attendance_key_records db sid subid (mc_status last) (mc_sync last)
                d (mc_time last) Hle) as [r [Hr [Hs [Ht _]]]].
    exists r; auto.
  - apply IH.
    destruct (mark_attendance_key_records db sid subid (mc_status c) (mc_sync c)
                d (mc_time c) Hle) as [r [Hr _]].
    rewrite Hr; simpl; lia.
Qed.

Lemma mark_attendance_last_call_wins_witness :
  (List.length (key_records 1 1 "2024-01-10" empty_db) <= 1)%nat /\
  exists r, key_records 1 1 "2024-01-10"
              (run_marks empty_db 1 1 "2024-01-10"
                 (app [{| mc_status := "present"; mc_sync := false; mc_time := "09:00:00" |}]
                      [{| mc_status := "absent"; mc_sync := false; mc_time := "10:00:00" |}]))
            = [r] /\ status r = "absent" /\ a_time r = "10:00:00".
Proof.
  split; [simpl; lia|].
  apply (mark_attendance_last_call_wins empty_db 1 1 "2024-01-10"
           [{| mc_status := "present"; mc_sync := false; mc_time := "09:00:00" |}]
           {| mc_status := "absent"; mc_sync := false; mc_time := "10:00:00" |}).
  simpl; lia.
Defined.

(** Claim C6 fails: [mark_attendance(1, 1)] with its defaults
    ([status="present"], [sync=True]) inserts a new record with
    [synced = true], and the pages' call [mark_attendance(1, 1, "present",
    False)] on a key whose record is synced resets the flag to false. *)
Lemma mark_attendance_synced_flag_counterexample :
  key_records 1 1 "2024-01-10"
    (fst (mark_attendance empty_db 1 1 "present" true "2024-01-10" "09:00:00"))
  = [{| a_id := 1; student_id := 1; subject_id := 1; a_date := "2024-01-10";
        a_time := "09:00:00"; status := "present"; synced := true |}] /\
  key_records 1 1 "2024-01-10"
    (fst (mark_attendance synced_db 1 1 "present" false "2024-01-10" "11:00:00"))
  = [{| a_id := 1; student_id := 1; subject_id := 1; a_date := "2024-01-10";
        a_time := "11:00:00"; status := "present"; synced := false |}].
Proof. split; reflexivity. Qed.

(** Claim C6 (amended). Every [mark_attendance] call sets the synced flag of
    the record it writes to its [sync] argument: the first existing record of
    the key is updated in place (same id) with the call's time, status and
    [sync]; when the key has no record, a record with the next id and
    [synced = sync] is inserted. *)
Theorem mark_attendance_sets_synced_to_argument (db : Db) (sid subid : Z)
    (st : string) (sync : bool) (d t : string) :
  exists r,
    find (att_key_eqb sid subid d)
      (attendance_tbl (fst (mark_attendance db sid subid st sync d t))) = Some r /\
    synced r = sync /\ status r = st /\ a_time r = t /\
    match find (att_key_eqb sid subid d) (attendance_tbl db) with
    | Some e => a_id r = a_id e
    | None => a_id r = (attendance_seq db + 1)%Z
    end.
Proof.
  unfold mark_attendance.
  destruct (find (att_key_eqb sid subid d) (attendance_tbl db)) as [e|] eqn:Hf;
    simpl.
  - unfold update_attendance; rewrite find_map_preserve by apply att_key_eqb_update.
    rewrite Hf; simpl; rewrite Z.eqb_refl.
    eexists; split; [reflexivity | simpl; auto].
  - rewrite (find_app_none _ _ _ Hf); simpl.
    unfold att_key_eqb at 1; simpl; rewrite !Z.eqb_refl, String.eqb_refl; simpl.
    eexists; split; [reflexivity | simpl; auto].
Qed.

(* ------------------------------------------------------------------ *)
(** ** The matcher *)

(** Claim C2 fails.  Gallery {S1 (id 5): [0]}, one detected face, tolerance
    0.6: the spec's matcher gives S1 for the observed vector [0] (distance 0)
    and unknown for [0.9] (distance 0.9), while [recognize_faces] answers
    id 1 in both cases. *)
Lemma recognize_faces_counterexample :
  snd (recognize_faces (list location) (fun i => i) one_entry_gallery one_face (6 # 10))
  = [1%Z] /\
  spec_nearest_match l1_dist [(5%Z, [0%Q])] [0%Q] (6 # 10) = (Some 5%Z, Some 0%Q) /\
  fst (spec_nearest_match l1_dist [(5%Z, [0%Q])] [9 # 10] (6 # 10)) = None.
Proof. vm_compute; repeat split; reflexivity. Qed.

(** Claim C2 (amended). [recognize_faces] is a placeholder: for every image,
    gallery and tolerance it returns the detected face locations with the
    name "Student" and the id 1 for each face; no distance is computed and
    no face is reported unknown. *)
Theorem recognize_faces_placeholder (image : Type) (detect_faces : image -> list location)
    (g : gallery) (img : image) (tolerance : Q) :
  recognize_faces image detect_faces g img tolerance =
  (detect_faces img,
   repeat "Student" (List.length (detect_faces img)),
   repeat 1%Z (List.length (detect_faces img))).
Proof. unfold recognize_faces; now rewrite !map_const_repeat. Qed.

(** Claim C9. For a fixed gallery and image and thresholds [t1 < t2], the
    ids matched at [t2] are among those matched at [t1]. *)
Theorem recognize_faces_threshold_monotone (image : Type)
    (detect_faces : image -> list location) (g : gallery) (img : image) (t1 t2 : Q) :
  (t1 < t2)%Q ->
  incl (snd (recognize_faces image detect_faces g img t2))
       (snd (recognize_faces image detect_faces g img t1)).
Proof. intros _; unfold recognize_faces; simpl; apply incl_refl. Qed.

Lemma recognize_faces_threshold_monotone_witness :
  (1 # 2 < 6 # 10)%Q /\
  incl (snd (recognize_faces (list location) (fun i => i) one_entry_gallery one_face (6 # 10)))
       (snd (recognize_faces (list location) (fun i => i) one_entry_gallery one_face (1 # 2))).
Proof.
  split; [unfold Qlt; simpl; lia|].
  apply (recognize_faces_threshold_monotone (list location) (fun i => i)
           one_entry_gallery one_face (1 # 2) (6 # 10)).
  unfold Qlt; simpl; lia.
Defined.

(** Claim C10. [get_face_encoding] returns an error and no encoding exactly
    when the detector does not find exactly one face; with exactly one face
    it returns the constant all-ones vector of length 128, whatever the
    image. *)
Theorem get_face_encoding_spec (image : Type) (detect_faces : image -> list location)
    (img : image) :
  ((exists msg, get_face_encoding image detect_faces img = (None, Some msg)) <->
   List.length (detect_faces img) <> 1%nat) /\
  (get_face_encoding image detect_faces img = (Some ones128, None) <->
   List.length (detect_faces img) = 1%nat) /\
  List.length ones128 = 128%nat /\ Forall (fun x => x = 1%Q) ones128.
Proof.
  unfold get_face_encoding.
  split; [|split; [|split]].
  - destruct (detect_faces img) as [|x [|y l]]; simpl.
    + split; [intros _; lia | eauto].
    + split; [intros [msg H]; discriminate | lia].
    + split; [intros _; lia | eauto].
  - destruct (detect_faces img) as [|x [|y l]]; simpl.
    + split; [discriminate | lia].
    + split; reflexivity.
    + split; [discriminate | lia].
  - reflexivity.
  - apply Forall_forall; intros x Hx; unfold ones128 in Hx.
    apply repeat_spec in Hx; exact Hx.
Qed.

(* ------------------------------------------------------------------ *)
(** ** The gallery reload *)

(** Claim C7 fails: when the [SELECT] of [get_all_face_encodings] raises
    (for instance "database is locked"), [load_known_faces] discards a
    loaded gallery, leaves it empty and returns a count of 0 with no error. *)
Lemma load_known_faces_counterexample :
  load_known_faces (fun _ => None) one_entry_gallery (QueryError "database is locked")
  = (empty_gallery, Ok 0%nat) /\ empty_gallery <> one_entry_gallery.
Proof. split; [reflexivity | discriminate]. Qed.

(** Claim C7 (amended).  If the store query fails, the reload empties the
    gallery and returns a count of 0 with no error signal; if opening the
    connection raises, the exception propagates and the gallery is left as
    it was; otherwise the gallery is replaced as a whole by every student
    with a stored encoding (in table order), the previous gallery playing no
    part, and the count returned is its size. *)
Theorem load_known_faces_outcomes (json_loads : string -> option vector)
    (g : gallery) (store : store_access) :
  match store with
  | ConnectError e => load_known_faces json_loads g store = (g, Raised e)
  | QueryError _ => load_known_faces json_loads g store = (empty_gallery, Ok 0%nat)
  | Reachable ss =>
      let '(g', n) := load_known_faces json_loads g store in
      g' = fst (load_known_faces json_loads empty_gallery store) /\
      known_face_ids g' = map s_id (filter has_encoding ss) /\
      n = Ok (List.length (filter has_encoding ss)) /\
      List.length (known_face_encodings g') = List.length (filter has_encoding ss) /\
      List.length (known_face_names g') = List.length (filter has_encoding ss)
  end.
Proof.
  destruct store as [e|e|ss]; try reflexivity.
  unfold load_known_faces, get_all_face_encodings; simpl.
  assert (Hrows : forall l,
    map fr_id (flat_map (fun s => match face_encoding s with
                | None => []
                | Some b => [{| fr_id := s_id s; fr_roll_no := roll_no s; fr_name := name s;
                                fr_encoding := decode_face_encoding json_loads b |}]
                end) l) = map s_id (filter has_encoding l)).
  { induction l as [|s l IH]; simpl; [reflexivity|].
    unfold has_encoding; destruct (face_encoding s); simpl; rewrite ?IH; reflexivity. }
  rewrite !length_map.
  rewrite <- (length_map fr_id), Hrows, length_map.
  repeat split; reflexivity.
Qed.

(* ------------------------------------------------------------------ *)
(** ** The reconciler: the synced flags it sets *)

Lemma sync_mark_nil a : sync_mark [] a = a.
Proof. reflexivity. Qed.

Lemma sync_mark_compose ids1 ids2 a :
  sync_mark ids2 (sync_mark ids1 a) = sync_mark (app ids1 ids2) a.
Proof.
  unfold sync_mark; rewrite existsb_app.
  destruct (existsb (Z.eqb (a_id a)) ids1); simpl; [|reflexivity].
  destruct (existsb (Z.eqb (a_id a)) ids2); destruct a; reflexivity.
Qed.

Lemma map_sync_mark_compose ids1 ids2 l :
  map (sync_mark ids2) (map (sync_mark ids1) l) = map (sync_mark (app ids1 ids2)) l.
Proof. rewrite map_map; apply map_ext; intros; apply sync_mark_compose. Qed.

Lemma map_sync_mark_nil l : map (sync_mark []) l = l.
Proof. induction l; simpl; f_equal; auto. Qed.

Lemma mark_attendance_synced_tbl db id :
  attendance_tbl (mark_attendance_synced db id) =
  map (sync_mark [id]) (attendance_tbl db).
Proof.
  unfold mark_attendance_synced, sync_mark; simpl.
  apply map_ext; intros a; rewrite orb_false_r; reflexivity.
Qed.

Lemma fold_mark_synced rows db :
  students (fold_left (fun db r => mark_attendance_synced db (r_id r)) rows db)
    = students db /\
  subjects (fold_left (fun db r => mark_attendance_synced db (r_id r)) rows db)
    = subjects db /\
  attendance_tbl (fold_left (fun db r => mark_attendance_synced db (r_id r)) rows db)
    = map (sync_mark (map r_id rows)) (attendance_tbl db).
Proof.
  revert db; induction rows as [|r rows IH]; intros db; simpl.
  - rewrite map_sync_mark_nil; auto.
  - destruct (IH (mark_attendance_synced db (r_id r))) as [H1 [H2 H3]].
    rewrite H1, H2, H3, mark_attendance_synced_tbl, map_sync_mark_compose.
    simpl; auto.
Qed.

Section LoopFacts.

Variable deliver : list urow -> bool * string.

Lemma sync_loop_effect groups acc :
  let acc' := sync_loop deliver acc groups in
  students (acc_db acc') = students (acc_db acc) /\
  subjects (acc_db acc') = subjects (acc_db acc) /\
  attendance_tbl (acc_db acc') =
    map (sync_mark (succeeded_ids deliver groups)) (attendance_tbl (acc_db acc)) /\
  transport_calls acc' = app (transport_calls acc) (delivered_batches groups) /\
  error_messages acc' = app (error_messages acc) (failed_reasons deliver groups) /\
  error_count acc' = (error_count acc + List.length (failed_reasons deliver groups))%nat.
Proof.
  revert acc; induction groups as [|[k g] groups IH]; intros acc; simpl.
  - rewrite map_sync_mark_nil, !app_nil_r, Nat.add_0_r; repeat split.
  - destruct g as [|r g'].
    + simpl. destruct (IH {| acc_db := acc_db acc; success_count := success_count acc;
                             error_count := S (error_count acc);
                             error_messages := app (error_messages acc)
                                                 ["No attendance data to send"];
                             transport_calls := app (transport_calls acc) [] |})
        as [H1 [H2 [H3 [H4 [H5 H6]]]]]; simpl in *.
      rewrite H1, H2, H3, H4, H5, H6, app_nil_r, <- app_assoc; simpl.
      repeat split; auto; lia.
    + unfold send_attendance_report.
      destruct (deliver (r :: g')) as [[|] e] eqn:Hd; simpl.
      * destruct (fold_mark_synced (r :: g') (acc_db acc)) as [F1 [F2 F3]].
        match goal with
        | |- context [sync_loop deliver ?a groups] =>
            destruct (IH a) as [H1 [H2 [H3 [H4 [H5 H6]]]]]; simpl in *
        end.
        rewrite H1, H2, H3, H4, H5, H6, F1, F2, F3, map_sync_mark_compose,
          <- app_assoc; simpl.
        repeat split; auto.
      * match goal with
        | |- context [sync_loop deliver ?a groups] =>
            destruct (IH a) as [H1 [H2 [H3 [H4 [H5 H6]]]]]; simpl in *
        end.
        rewrite H1, H2, H3, H4, H5, H6, <- !app_assoc; simpl.
        repeat split; auto; lia.
Qed.

End LoopFacts.

(* ------------------------------------------------------------------ *)
(** ** The unsynced query *)

Lemma In_insert_desc x a l : In x (insert_desc a l) <-> a = x \/ In x l.
Proof.
  induction l as [|b l IH]; simpl; [tauto|].
  destruct (before_desc b a); simpl; [rewrite IH|]; tauto.
Qed.

Lemma In_sort_desc x l : In x (sort_desc l) <-> In x l.
Proof.
  induction l as [|a l IH]; simpl; [tauto|].
  rewrite In_insert_desc, IH; tauto.
Qed.

Lemma insert_desc_map (f : attendance -> attendance) a l :
  (forall x, a_date (f x) = a_date x /\ a_time (f x) = a_time x) ->
  insert_desc (f a) (map f l) = map f (insert_desc a l).
Proof.
  intros Hf; induction l as [|b l IH]; simpl; [reflexivity|].
  assert (Hb : before_desc (f b) (f a) = before_desc b a).
  { unfold before_desc; destruct (Hf a) as [-> ->]; destruct (Hf b) as [-> ->];
    reflexivity. }
  rewrite Hb; destruct (before_desc b a); simpl; [rewrite IH|]; reflexivity.
Qed.

Lemma sort_desc_map (f : attendance -> attendance) l :
  (forall x, a_date (f x) = a_date x /\ a_time (f x) = a_time x) ->
  sort_desc (map f l) = map f (sort_desc l).
Proof.
  intros Hf; induction l as [|a l IH]; simpl; [reflexivity|].
  fold (sort_desc (map f l)) (sort_desc l); rewrite IH.
  apply insert_desc_map; exact Hf.
Qed.

Lemma sync_mark_fields ids a :
  a_date (sync_mark ids a) = a_date a /\ a_time (sync_mark ids a) = a_time a.
Proof. unfold sync_mark; destruct existsb; auto. Qed.

Lemma join_rows_sync_mark db ids a : join_rows db (sync_mark ids a) = join_rows db a.
Proof. unfold sync_mark; destruct existsb; [destruct a|]; reflexivity. Qed.

Lemma join_rows_tables db db' a :
  students db' = students db -> subjects db' = subjects db ->
  join_rows db' a = join_rows db a.
Proof. intros Hs Hsub; unfold join_rows; rewrite Hs, Hsub; reflexivity. Qed.

(** The pending rows after [mark_attendance_synced] for every id of [ids]. *)
Lemma get_unsynced_after_marks db db' ids :
  students db' = students db -> subjects db' = subjects db ->
  attendance_tbl db' = map (sync_mark ids) (attendance_tbl db) ->
  get_unsynced_attendance db' =
  flat_map (fun a => if synced (sync_mark ids a) then [] else join_rows db a)
    (sort_desc (attendance_tbl db)).
Proof.
  intros Hs Hsub Ht; unfold get_unsynced_attendance.
  rewrite Ht, sort_desc_map by apply sync_mark_fields.
  induction (sort_desc (attendance_tbl db)) as [|a l IH]; simpl; [reflexivity|].
  rewrite IH, join_rows_sync_mark, (join_rows_tables db db' a Hs Hsub); reflexivity.
Qed.

Lemma In_join_rows db a r :
  In r (join_rows db a) -> r_id r = a_id a /\ rkey r = akey a.
Proof.
  unfold join_rows; intros H.
  apply in_flat_map in H as [s [_ Hs]].
  destruct (Z.eqb (s_id s) (student_id a)); [|contradiction].
  apply in_flat_map in Hs as [sub [_ Hsub]].
  destruct (Z.eqb (sub_id sub) (subject_id a)) eqn:E; [|contradiction].
  apply Z.eqb_eq in E.
  destruct Hsub as [<- | []]; unfold rkey, akey; simpl; rewrite E; auto.
Qed.

Lemma In_get_unsynced db r :
  In r (get_unsynced_attendance db) <->
  exists a, In a (attendance_tbl db) /\ synced a = false /\ In r (join_rows db a).
Proof.
  unfold get_unsynced_attendance; rewrite in_flat_map; split.
  - intros [a [Ha Hr]]; rewrite In_sort_desc in Ha.
    destruct (synced a) eqn:E; [contradiction|].
    exists a; split; [exact Ha | split; [exact E | exact Hr]].
  - intros [a [Ha [E Hr]]]; exists a; split; [apply In_sort_desc; exact Ha|].
    rewrite E; exact Hr.
Qed.

Lemma NoDup_map_eq {A B : Type} (f : A -> B) l x y :
  NoDup (map f l) -> In x l -> In y l -> f x = f y -> x = y.
Proof.
  induction l as [|z l IH]; simpl; [tauto|].
  intros Hnd Hx Hy Hf; inversion Hnd as [|? ? Hnotin Hnd']; subst.
  destruct Hx as [<- | Hx], Hy as [<- | Hy]; auto.
  - exfalso; apply Hnotin; rewrite Hf; apply in_map; exact Hy.
  - exfalso; apply Hnotin; rewrite <- Hf; apply in_map; exact Hx.
Qed.

(** With unique attendance ids, a pending row that carries the id of a
    record comes from that record. *)
Lemma pending_row_origin db r a :
  NoDup (map a_id (attendance_tbl db)) ->
  In r (get_unsynced_attendance db) -> In a (attendance_tbl db) -> r_id r = a_id a ->
  rkey r = akey a /\ synced a = false /\ In r (join_rows db a).
Proof.
  intros Hnd Hr Ha Hid.
  apply In_get_unsynced in Hr as [a' [Ha' [Hs Hj]]].
  destruct (In_join_rows _ _ _ Hj) as [Hid' Hk].
  assert (a' = a) as -> by (apply (NoDup_map_eq a_id (attendance_tbl db)); auto; congruence).
  auto.
Qed.

(* ------------------------------------------------------------------ *)
(** ** [groupby] *)

Lemma gkey_eqb_eq k k' : gkey_eqb k k' = true <-> k = k'.
Proof.
  destruct k as [d s], k' as [d' s']; unfold gkey_eqb; simpl.
  rewrite andb_true_iff, String.eqb_eq, Z.eqb_eq.
  split; [intros [-> ->]; reflexivity | intros H; inversion H; auto].
Qed.

Lemma In_insert_gkey x k l : In x (insert_gkey k l) <-> k = x \/ In x l.
Proof.
  induction l as [|k' l IH]; simpl; [tauto|].
  destruct (gkey_eqb k k') eqn:E.
  - apply gkey_eqb_eq in E; subst; simpl; tauto.
  - destruct (gkey_ltb k k'); simpl; [tauto|].
    rewrite IH; tauto.
Qed.

Lemma In_group_keys k rows : In k (group_keys rows) <-> exists r, In r rows /\ rkey r = k.
Proof.
  induction rows as [|r rows IH]; simpl.
  - split; [tauto | intros [r [[] _]]].
  - rewrite In_insert_gkey, IH; split.
    + intros [H | [r' [H1 H2]]]; [exists r; auto | exists r'; auto].
    + intros [r' [[<- | H1] H2]]; [left; exact H2 | right; exists r'; auto].
Qed.

Lemma In_groupby k g rows :
  In (k, g) (groupby rows) <->
  (exists r, In r rows /\ rkey r = k) /\ g = filter (fun r => gkey_eqb (rkey r) k) rows.
Proof.
  unfold groupby; rewrite in_map_iff; split.
  - intros [k' [H Hk']]; inversion H; subst; split; auto.
    apply In_group_keys; exact Hk'.
  - intros [Hk ->]; exists k; split; [reflexivity|]; apply In_group_keys; exact Hk.
Qed.

Lemma groupby_cover rows r :
  In r rows -> exists g, In (rkey r, g) (groupby rows) /\ In r g.
Proof.
  intros Hr; exists (filter (fun r' => gkey_eqb (rkey r') (rkey r)) rows); split.
  - apply In_groupby; eauto.
  - apply filter_In; split; [exact Hr | apply gkey_eqb_eq; reflexivity].
Qed.

Lemma groupby_member rows k g r :
  In (k, g) (groupby rows) -> In r g -> In r rows /\ rkey r = k.
Proof.
  intros Hg Hr; apply In_groupby in Hg as [_ ->].
  apply filter_In in Hr as [Hr Hk]; apply gkey_eqb_eq in Hk; auto.
Qed.

Lemma groupby_nonempty rows k g : In (k, g) (groupby rows) -> g <> [].
Proof.
  intros Hg; apply In_groupby in Hg as [[r [Hr Hk]] ->].
  intros Hnil; assert (Hin : In r (filter (fun r' => gkey_eqb (rkey r') k) rows)).
  { apply filter_In; split; [exact Hr | apply gkey_eqb_eq; exact Hk]. }
  rewrite Hnil in Hin; contradiction.
Qed.

Lemma In_succeeded_ids deliver groups i :
  In i (succeeded_ids deliver groups) <->
  exists k g, In (k, g) groups /\ g <> [] /\ fst (deliver g) = true /\ In i (map r_id g).
Proof.
  unfold succeeded_ids; rewrite in_flat_map; split.
  - intros [[k g] [Hin Hi]]; simpl in Hi.
    destruct g as [|r g']; [contradiction|].
    destruct (fst (deliver (r :: g'))) eqn:E; [|contradiction].
    exists k, (r :: g'); repeat split; auto; discriminate.
  - intros [k [g [Hin [Hne [Hd Hi]]]]]; exists (k, g); split; [exact Hin|]; simpl.
    destruct g as [|r g']; [contradiction|]; rewrite Hd; exact Hi.
Qed.

Lemma In_failed_reasons deliver groups k g :
  In (k, g) groups -> g <> [] -> fst (deliver g) = false ->
  In (snd (deliver g)) (failed_reasons deliver groups).
Proof.
  intros Hin Hne Hd; unfold failed_reasons; apply in_flat_map.
  exists (k, g); split; [exact Hin|]; simpl.
  destruct g as [|r g']; [contradiction|]; rewrite Hd; left; reflexivity.
Qed.

(* ------------------------------------------------------------------ *)
(** ** One reconciliation run *)

Lemma existsb_eqb_in i l : In i l -> existsb (Z.eqb i) l = true.
Proof. intros H; apply existsb_exists; exists i; split; [exact H | apply Z.eqb_refl]. Qed.

Lemma existsb_eqb_not_in i l : ~ In i l -> existsb (Z.eqb i) l = false.
Proof.
  intros H; destruct (existsb (Z.eqb i) l) eqn:E; [|reflexivity].
  apply existsb_exists in E as [x [Hx Hxe]]; apply Z.eqb_eq in Hxe; subst.
  contradiction.
Qed.

Lemma existsb_eqb_true i l : existsb (Z.eqb i) l = true -> In i l.
Proof.
  intros E; apply existsb_exists in E as [x [Hx Hxe]]; apply Z.eqb_eq in Hxe.
  subst; exact Hx.
Qed.

Lemma Forall2_map_self {A : Type} (R : A -> A -> Prop) (f : A -> A) l :
  (forall a, In a l -> R a (f a)) -> Forall2 R l (map f l).
Proof.
  induction l as [|a l IH]; intros H; simpl; constructor.
  - apply H; left; reflexivity.
  - apply IH; intros; apply H; right; assumption.
Qed.

Lemma filter_flat_map {A B : Type} (p : B -> bool) (f : A -> list B) l :
  filter p (flat_map f l) = flat_map (fun x => filter p (f x)) l.
Proof.
  induction l as [|x l IH]; simpl; [reflexivity|]; rewrite filter_app, IH; reflexivity.
Qed.

Lemma flat_map_ext_in {A B : Type} (f g : A -> list B) l :
  (forall x, In x l -> f x = g x) -> flat_map f l = flat_map g l.
Proof.
  induction l as [|x l IH]; intros H; simpl; [reflexivity|].
  rewrite H by (left; reflexivity); rewrite IH; [reflexivity|].
  intros; apply H; right; assumption.
Qed.

Lemma filter_all_false {A : Type} (p : A -> bool) l :
  (forall x, In x l -> p x = false) -> filter p l = [].
Proof.
  induction l as [|x l IH]; intros H; simpl; [reflexivity|].
  rewrite H by (left; reflexivity); apply IH; intros; apply H; right; assumption.
Qed.

(** A run sets exactly the synced flags of the rows of confirmed batches and
    touches nothing else. *)
Lemma sync_pending_effect deliver db :
  let db1 := fst (fst (sync_pending_attendance deliver db)) in
  students db1 = students db /\ subjects db1 = subjects db /\
  attendance_tbl db1 =
    map (sync_mark (succeeded_ids deliver (groupby (get_unsynced_attendance db))))
      (attendance_tbl db).
Proof.
  unfold sync_pending_attendance.
  destruct (get_unsynced_attendance db) as [|u us].
  - cbn; rewrite map_sync_mark_nil; repeat split.
  - destruct (sync_loop_effect deliver (groupby (u :: us))
                {| acc_db := db; success_count := 0; error_count := 0;
                   error_messages := []; transport_calls := [] |})
      as [H1 [H2 [H3 _]]].
    cbn [fst acc_db] in *; rewrite H1, H2, H3; repeat split.
Qed.

(** The failed batch of key [k] shares no record with a confirmed batch. *)
Lemma failed_batch_ids_not_succeeded deliver db k g a :
  NoDup (map a_id (attendance_tbl db)) ->
  In (k, g) (groupby (get_unsynced_attendance db)) -> fst (deliver g) = false ->
  In a (attendance_tbl db) -> In (a_id a) (map r_id g) ->
  ~ In (a_id a) (succeeded_ids deliver (groupby (get_unsynced_attendance db))).
Proof.
  intros Hnd Hg Hd Ha Hi HS.
  apply In_succeeded_ids in HS as [k' [g' [Hg' [_ [Hd' Hi']]]]].
  apply in_map_iff in Hi as [r [Hr Hrg]].
  apply in_map_iff in Hi' as [r' [Hr' Hrg']].
  destruct (groupby_member _ _ _ _ Hg Hrg) as [Hrows Hk].
  destruct (groupby_member _ _ _ _ Hg' Hrg') as [Hrows' Hk'].
  destruct (pending_row_origin db r a Hnd Hrows Ha Hr) as [Hka _].
  destruct (pending_row_origin db r' a Hnd Hrows' Ha Hr') as [Hka' _].
  apply In_groupby in Hg as [_ Hgeq]; apply In_groupby in Hg' as [_ Hgeq'].
  assert (Hkk : k' = k) by congruence; rewrite Hkk in Hgeq'.
  assert (g' = g) by congruence; subst g'; congruence.
Qed.

(** Claim C3. A reconciliation run never sets a synced flag without a
    confirmed success from the transport for a batch holding that record;
    a batch whose delivery fails keeps all its records stored unchanged and
    unsynced, and comes back as the same batch, under the same key, in the
    next run. *)
Theorem reconcile_marks_only_confirmed_batches (deliver : list urow -> bool * string)
    (db : Db) :
  wf_db db ->
  let db1 := fst (fst (sync_pending_attendance deliver db)) in
  Forall2 (fun a a' =>
             a' = a \/
             (a' = set_synced a /\
              exists g, In g (pending_batches db) /\ fst (deliver g) = true /\
                        In (a_id a) (map r_id g)))
    (attendance_tbl db) (attendance_tbl db1) /\
  (forall g, In g (pending_batches db) -> fst (deliver g) = false ->
     (forall a, In a (attendance_tbl db) -> In (a_id a) (map r_id g) ->
        synced a = false /\ In a (attendance_tbl db1)) /\
     exists k, In (k, g) (groupby (get_unsynced_attendance db1))).
Proof.
  intros [_ [_ Hnd]] db1.
  destruct (sync_pending_effect deliver db) as [H1 [H2 H3]]; fold db1 in H1, H2, H3.
  set (S := succeeded_ids deliver (groupby (get_unsynced_attendance db))) in *.
  split.
  - rewrite H3; apply Forall2_map_self; intros a Ha; unfold sync_mark.
    destruct (existsb (Z.eqb (a_id a)) S) eqn:E; [right | left; reflexivity].
    split; [reflexivity|].
    apply existsb_eqb_true, In_succeeded_ids in E as [k [g [Hg [_ [Hd Hi]]]]].
    exists g; split; [apply in_map_iff; exists (k, g); auto | auto].
  - intros g Hg Hd.
    unfold pending_batches in Hg; apply in_map_iff in Hg as [[k g'] [Heq Hg]].
    simpl in Heq; subst g'.
    pose proof (failed_batch_ids_not_succeeded deliver db k g) as Hnot.
    split.
    + intros a Ha Hi.
      pose proof (Hnot a Hnd Hg Hd Ha Hi) as HnS.
      apply in_map_iff in Hi as [r [Hr Hrg]].
      destruct (groupby_member _ _ _ _ Hg Hrg) as [Hrows _].
      destruct (pending_row_origin db r a Hnd Hrows Ha Hr) as [_ [Hs _]].
      split; [exact Hs|].
      rewrite H3; replace a with (sync_mark S a) at 1.
      * apply in_map; exact Ha.
      * unfold sync_mark; rewrite existsb_eqb_not_in by exact HnS; reflexivity.
    + rewrite (get_unsynced_after_marks db db1 S H1 H2 H3).
      assert (Hf : filter (fun r => gkey_eqb (rkey r) k)
                     (flat_map (fun a => if synced (sync_mark S a) then []
                                         else join_rows db a)
                        (sort_desc (attendance_tbl db))) = g).
      { pose proof Hg as Hg0; apply In_groupby in Hg0 as [_ Hgeq]; rewrite Hgeq.
        unfold get_unsynced_attendance; rewrite !filter_flat_map.
        apply flat_map_ext_in; intros a Ha; rewrite In_sort_desc in Ha.
        unfold sync_mark; destruct (existsb (Z.eqb (a_id a)) S) eqn:ES; [|reflexivity].
        simpl; destruct (synced a) eqn:Ea; [reflexivity|].
        symmetry; apply filter_all_false; intros x Hx.
        destruct (gkey_eqb (rkey x) k) eqn:Ek; [exfalso|reflexivity].
        apply gkey_eqb_eq in Ek.
        assert (Hxrows : In x (get_unsynced_attendance db))
          by (apply In_get_unsynced; exists a; split; [exact Ha | split; [exact Ea | exact Hx]]).
        assert (Hxg : In x g).
        { rewrite Hgeq; apply filter_In; split; [exact Hxrows|].
          apply gkey_eqb_eq; exact Ek. }
        destruct (In_join_rows _ _ _ Hx) as [Hid _].
        apply (Hnot a Hnd Hg Hd Ha).
        * rewrite <- Hid; apply in_map; exact Hxg.
        * apply existsb_eqb_true; exact ES. }
      exists k; apply In_groupby; split; [|symmetry; exact Hf].
      destruct g as [|r g'] eqn:Eg; [exfalso; apply (groupby_nonempty _ _ _ Hg); reflexivity|].
      assert (Hr : In r (filter (fun r => gkey_eqb (rkey r) k)
                     (flat_map (fun a => if synced (sync_mark S a) then []
                                         else join_rows db a)
                        (sort_desc (attendance_tbl db))))) by (rewrite Hf; left; reflexivity).
      apply filter_In in Hr as [Hr Hk]; apply gkey_eqb_eq in Hk; eauto.
Qed.

Lemma reconcile_marks_only_confirmed_batches_witness :
  wf_db two_subject_db /\
  let db1 := fst (fst (sync_pending_attendance act1_down_transport two_subject_db)) in
  Forall2 (fun a a' =>
             a' = a \/
             (a' = set_synced a /\
              exists g, In g (pending_batches two_subject_db) /\
                        fst (act1_down_transport g) = true /\ In (a_id a) (map r_id g)))
    (attendance_tbl two_subject_db) (attendance_tbl db1) /\
  (forall g, In g (pending_batches two_subject_db) -> fst (act1_down_transport g) = false ->
     (forall a, In a (attendance_tbl two_subject_db) -> In (a_id a) (map r_id g) ->
        synced a = false /\ In a (attendance_tbl db1)) /\
     exists k, In (k, g) (groupby (get_unsynced_attendance db1))).
Proof.
  assert (Hwf : wf_db two_subject_db)
    by (unfold wf_db; simpl; repeat split; repeat constructor; simpl; lia).
  split; [exact Hwf|].
  apply (reconcile_marks_only_confirmed_batches act1_down_transport two_subject_db Hwf).
Defined.

(** Claim C4. If every delivery of a reconciliation run succeeds, a second
    run right after it (with any transport) finds nothing pending and makes
    no transport call. *)
Theorem reconcile_twice_no_second_transport_call
    (deliver deliver2 : list urow -> bool * string) (db : Db) :
  Forall (fun g => fst (deliver g) = true) (pending_batches db) ->
  snd (sync_pending_attendance deliver2
         (fst (fst (sync_pending_attendance deliver db)))) = [].
Proof.
  intros Hall.
  destruct (sync_pending_effect deliver db) as [H1 [H2 H3]].
  set (db1 := fst (fst (sync_pending_attendance deliver db))) in *.
  set (S := succeeded_ids deliver (groupby (get_unsynced_attendance db))) in *.
  assert (Hempty : get_unsynced_attendance db1 = []).
  { rewrite (get_unsynced_after_marks db db1 S H1 H2 H3).
    transitivity (flat_map (fun _ : attendance => @nil urow) (sort_desc (attendance_tbl db))).
    2:{ induction (sort_desc (attendance_tbl db)); simpl; auto. }
    apply flat_map_ext_in; intros a Ha; rewrite In_sort_desc in Ha.
    unfold sync_mark; destruct (existsb (Z.eqb (a_id a)) S) eqn:ES; [reflexivity|].
    destruct (synced a) eqn:Ea; [reflexivity|].
    destruct (join_rows db a) as [|r rs] eqn:Ej; [reflexivity|exfalso].
    assert (Hr : In r (join_rows db a)) by (rewrite Ej; left; reflexivity).
    assert (Hrows : In r (get_unsynced_attendance db))
      by (apply In_get_unsynced; exists a; split; [exact Ha | split; [exact Ea | exact Hr]]).
    destruct (groupby_cover _ _ Hrows) as [g [Hg Hrg]].
    assert (Hd : fst (deliver g) = true).
    { rewrite Forall_forall in Hall; apply Hall; unfold pending_batches.
      apply in_map_iff; exists (rkey r, g); auto. }
    destruct (In_join_rows _ _ _ Hr) as [Hid _].
    assert (HS : In (a_id a) S).
    { apply In_succeeded_ids; exists (rkey r), g; split; [exact Hg|].
      split; [apply (groupby_nonempty _ _ _ Hg)|]; split; [exact Hd|].
      rewrite <- Hid; apply in_map; exact Hrg. }
    rewrite (existsb_eqb_in _ _ HS) in ES; discriminate. }
  unfold sync_pending_attendance at 1; rewrite Hempty; reflexivity.
Qed.

Lemma reconcile_twice_no_second_transport_call_witness :
  Forall (fun g => fst (demo_transport g) = true) (pending_batches two_subject_db) /\
  snd (sync_pending_attendance act1_down_transport
         (fst (fst (sync_pending_attendance demo_transport two_subject_db)))) = [].
Proof.
  assert (H : Forall (fun g => fst (demo_transport g) = true) (pending_batches two_subject_db))
    by (vm_compute; repeat constructor).
  split; [exact H|].
  apply (reconcile_twice_no_second_transport_call demo_transport act1_down_transport
           two_subject_db H).
Defined.

(* ------------------------------------------------------------------ *)
(** ** The failure report *)

Lemma string_app_assoc (a b c : string) : (a ++ b) ++ c = a ++ (b ++ c).
Proof. induction a as [|ch a IH]; simpl; [reflexivity | now rewrite IH]. Qed.

Lemma string_app_nil_r (a : string) : a ++ "" = a.
Proof. induction a as [|ch a IH]; simpl; [reflexivity | now rewrite IH]. Qed.

(** [", ".join(l)] contains every element of [l]. *)
Lemma concat_contains (sep x : string) (l : list string) :
  In x l -> exists pre post, String.concat sep l = pre ++ x ++ post.
Proof.
  induction l as [|y l IH]; simpl; [tauto|].
  intros [<- | Hin].
  - destruct l as [|z l].
    + exists "", ""; simpl; rewrite string_app_nil_r; reflexivity.
    + exists "", (sep ++ String.concat sep (z :: l)); reflexivity.
  - destruct l as [|z l]; [contradiction|].
    destruct (IH Hin) as [pre [post Hc]].
    exists (y ++ sep ++ pre), post.
    change (y ++ sep ++ String.concat sep (z :: l) = (y ++ sep ++ pre) ++ x ++ post).
    rewrite Hc, !string_app_assoc; reflexivity.
Qed.

(** Claim C5. Batches are independent: every batch whose delivery is
    confirmed has all its records synced after the run, whatever happened to
    the other batches, and every failed batch turns the run's answer into a
    failure whose message contains that batch's error.  Scenario D: with one
    pending record for ACT1 and one for ACT2 on 2024-01-10 and a transport
    failing only for ACT1, the ACT2 record ends synced, the ACT1 record stays
    pending, and the answer reports the ACT1 error. *)
Theorem reconcile_batches_independent :
  (forall (deliver : list urow -> bool * string) (db : Db),
     let res := sync_pending_attendance deliver db in
     (forall g, In g (pending_batches db) -> fst (deliver g) = true ->
        forall a, In a (attendance_tbl db) -> In (a_id a) (map r_id g) ->
        In (set_synced a) (attendance_tbl (fst (fst res)))) /\
     (forall g, In g (pending_batches db) -> fst (deliver g) = false ->
        fst (snd (fst res)) = false /\
        exists pre post, snd (snd (fst res)) = pre ++ snd (deliver g) ++ post)) /\
  (let res := sync_pending_attendance act1_down_transport two_subject_db in
   attendance_tbl (fst (fst res)) =
     [pending_record 1 1 1; set_synced (pending_record 2 2 2)] /\
   snd (fst res) = (false, "Synced 1 reports, 1 failed: Telegram request timed out")).
Proof.
  split; [|vm_compute; split; reflexivity].
  intros deliver db res; split.
  - intros g Hg Hd a Ha Hi.
    destruct (sync_pending_effect deliver db) as [_ [_ H3]].
    unfold res; rewrite H3.
    replace (set_synced a)
      with (sync_mark (succeeded_ids deliver (groupby (get_unsynced_attendance db))) a).
    + apply in_map; exact Ha.
    + unfold sync_mark; rewrite existsb_eqb_in; [reflexivity|].
      unfold pending_batches in Hg; apply in_map_iff in Hg as [[k g'] [Heq Hg]].
      simpl in Heq; subst g'.
      apply In_succeeded_ids; exists k, g; repeat split; auto.
      apply (groupby_nonempty _ _ _ Hg).
  - intros g Hg Hd.
    unfold pending_batches in Hg; apply in_map_iff in Hg as [[k g'] [Heq Hg]].
    simpl in Heq; subst g'.
    assert (Hne : g <> []) by apply (groupby_nonempty _ _ _ Hg).
    unfold res, sync_pending_attendance.
    revert Hg; destruct (get_unsynced_attendance db) as [|u us]; intros Hg;
      [simpl in Hg; contradiction|].
    pose proof (In_failed_reasons deliver _ k g Hg Hne Hd) as Hfr.
    destruct (sync_loop_effect deliver (groupby (u :: us))
                {| acc_db := db; success_count := 0; error_count := 0;
                   error_messages := []; transport_calls := [] |})
      as [_ [_ [_ [_ [H5 H6]]]]].
    cbn [error_messages error_count app Nat.add] in H5, H6.
    destruct (failed_reasons deliver (groupby (u :: us))) as [|m ms] eqn:Efr;
      [contradiction|].
    cbn [fst snd]; rewrite H6; cbn [List.length Nat.eqb]; split; [reflexivity|].
    rewrite H5.
    destruct (concat_contains ", " (snd (deliver g)) (m :: ms) Hfr) as [pre [post Hc]].
    rewrite Hc; cbn [snd].
    match goal with
    | |- exists p q, ?a ++ ?b ++ ?c ++ ?d ++ ?e ++ (pre ++ ?x ++ post) = _ =>
        exists (a ++ b ++ c ++ d ++ e ++ pre), post
    end.
    rewrite !string_app_assoc; reflexivity.
Qed.

(* ------------------------------------------------------------------ *)
(** ** The statistics *)

(** Claim C8 (code defect).  [get_attendance_stats(subject_id=3,
    semester=3)] on three students of semester 3, two of them present in
    subject 3: the parameters of the [total] query are picked by value
    ([p in [branch, semester, section]]), so the subject id 3 is kept next to
    the semester 3, two values meet one placeholder, sqlite3 raises and the
    function returns the zero counts instead of total 3, present 2, absent 1.
    Filtering by the subject alone (scenario E) gives 3, 2, 1. *)
Theorem get_attendance_stats_param_collision :
  get_attendance_stats stats_db PNone (PInt 3) PNone (PInt 3) PNone = zero_stats /\
  spec_stats stats_db PNone (PInt 3) PNone (PInt 3) PNone
    = {| total := 3; present := 2; absent := 1 |} /\
  get_attendance_stats stats_db PNone (PInt 3) PNone PNone PNone
    = {| total := 3; present := 2; absent := 1 |} /\
  spec_stats stats_db PNone (PInt 3) PNone PNone PNone
    = {| total := 3; present := 2; absent := 1 |}.
Proof. vm_compute; repeat split; reflexivity. Qed.

Lemma py_eqb_refl v : py_eqb v v = true.
Proof. destruct v; simpl; [reflexivity | apply Z.eqb_refl | apply String.eqb_refl]. Qed.

(** Without such a collision the function computes the counts of section
    4.5 of the spec. *)
Lemma get_attendance_stats_no_collision db date_filter subject_id_f branch_f semester_f
    section_f :
  (truthy date_filter = false \/
   existsb (py_eqb date_filter) [branch_f; semester_f; section_f] = false) ->
  (truthy subject_id_f = false \/
   existsb (py_eqb subject_id_f) [branch_f; semester_f; section_f] = false) ->
  get_attendance_stats db date_filter subject_id_f branch_f semester_f section_f =
  spec_stats db date_filter subject_id_f branch_f semester_f section_f.
Proof.
  intros Hd Hs; unfold get_attendance_stats, spec_stats, stat_conditions.
  destruct (truthy date_filter) eqn:Td, (truthy subject_id_f) eqn:Ts,
    (truthy branch_f), (truthy semester_f), (truthy section_f);
    destruct Hd as [Hd|Hd]; try discriminate; destruct Hs as [Hs|Hs]; try discriminate;
    cbn [List.concat app map filter fst snd] in *;
    repeat (rewrite ?Hd, ?Hs; cbn [existsb]; rewrite ?py_eqb_refl, ?orb_true_r;
            cbn [orb negb]);
    unfold bind_params; simpl; reflexivity.
Qed.

(* ------------------------------------------------------------------ *)
(** ** Further properties of the tables, the bot and the pages *)

Lemma string_compare_refl s : String.compare s s = Eq.
Proof.
  induction s as [|c s IH]; simpl; [reflexivity|].
  unfold Ascii.compare; rewrite N.compare_refl; exact IH.
Qed.

Lemma string_compare_lt_trans a b c :
  String.compare a b = Lt -> String.compare b c = Lt -> String.compare a c = Lt.
Proof.
  revert b c; induction a as [|x a IH]; intros [|y b] [|z c]; simpl; try congruence.
  unfold Ascii.compare.
  destruct (N.compare (N_of_ascii x) (N_of_ascii y)) eqn:E1; try congruence;
  destruct (N.compare (N_of_ascii y) (N_of_ascii z)) eqn:E2; try congruence;
  intros H1 H2.
  - apply N.compare_eq_iff in E1, E2; rewrite E1, E2, N.compare_refl; exact (IH b c H1 H2).
  - apply N.compare_eq_iff in E1; rewrite E1, E2; reflexivity.
  - apply N.compare_eq_iff in E2; rewrite <- E2, E1; reflexivity.
  - apply N.compare_lt_iff in E1, E2.
    assert (E : N.compare (N_of_ascii x) (N_of_ascii z) = Lt)
      by (apply N.compare_lt_iff; eapply N.lt_trans; eassumption).
    rewrite E; reflexivity.
Qed.


(** [String.ltb] and [String.leb] through [String.compare]. *)
Ltac str_cmp :=
  unfold String.ltb, String.leb in *;
  repeat match goal with
  | H : String.eqb _ _ = true |- _ => apply String.eqb_eq in H; subst
  | |- context [String.eqb ?a ?a] => rewrite String.eqb_refl
  | |- context [String.compare ?a ?a] => rewrite string_compare_refl
  | H : context [String.compare ?a ?a] |- _ => rewrite string_compare_refl in H
  end.






Lemma string_ltb_leb_trans a b c :
  String.ltb a b = true -> String.leb b c = true -> String.ltb a c = true.
Proof.
  str_cmp; destruct (String.compare a b) eqn:E1; try congruence;
  destruct (String.compare b c) eqn:E2; try congruence; intros _ _.
  - apply String.compare_eq_iff in E2; subst; rewrite E1; reflexivity.
  - rewrite (string_compare_lt_trans a b c E1 E2); reflexivity.
Qed.











Lemma In_join_rows_fields db a r :
  In r (join_rows db a) ->
  r_id r = a_id a /\ r_date r = a_date a /\ r_time r = a_time a /\ r_status r = status a /\
  r_student_id r = student_id a /\ r_subject_id r = subject_id a /\
  exists s sub, In s (students db) /\ In sub (subjects db) /\
    s_id s = student_id a /\ sub_id sub = subject_id a /\
    r_roll_no r = roll_no s /\ r_student_name r = name s /\ r_branch r = branch s /\
    r_semester r = semester s /\ r_section r = section s /\
    r_subject_code r = subject_code sub /\ r_subject_name r = subject_name sub.
Proof.
  unfold join_rows; intros H.
  apply in_flat_map in H as [s [Hs H]].
  destruct (Z.eqb (s_id s) (student_id a)) eqn:E1; [|contradiction].
  apply in_flat_map in H as [sub [Hsub H]].
  destruct (Z.eqb (sub_id sub) (subject_id a)) eqn:E2; [|contradiction].
  apply Z.eqb_eq in E1, E2.
  destruct H as [<- | []]; simpl.
  repeat split; auto. exists s, sub; repeat split; auto.
Qed.


(** Extra X8. [get_unsynced_attendance] returns, in order, exactly the rows of the unfiltered [get_attendance] whose synced flag is false. *)
Theorem get_unsynced_is_unsynced_attendance db :
  get_unsynced_attendance db =
  map fst (filter (fun x => negb (snd x))
             (get_attendance db PNone PNone PNone PNone PNone PNone)).
Proof.
  unfold get_unsynced_attendance, get_attendance; simpl.
  induction (sort_desc (attendance_tbl db)) as [|a l IH]; simpl; [reflexivity|].
  rewrite filter_app, map_app, IH; f_equal.
  destruct (synced a); simpl.
  - induction (join_rows db a) as [|r rs IHr]; simpl; [reflexivity|exact IHr].
  - induction (join_rows db a) as [|r rs IHr]; simpl; [reflexivity|f_equal; exact IHr].
Qed.




(** *** [get_students] *)








(** *** Settings and [create_tables] *)


Lemma get_setting_update_setting t key value k :
  get_setting (fst (update_setting t key value)) k =
  if String.eqb k key then option_map (fun _ => value) (get_setting t k)
  else get_setting t k.
Proof.
  unfold get_setting, update_setting; simpl.
  rewrite find_map_preserve by (intros r; destruct (String.eqb (set_key r) key); reflexivity).
  destruct (find (fun r => String.eqb (set_key r) k) (settings_tbl t)) as [r|] eqn:Hf;
    simpl; [|destruct (String.eqb k key); reflexivity].
  apply find_some in Hf as [_ Hk]; apply String.eqb_eq in Hk; subst k.
  destruct (String.eqb (set_key r) key); reflexivity.
Qed.

(** Extra X11. [update_setting] always answers [True]; afterwards the key holds the new value if it had a row and stays absent if not (no row is inserted), and every other key is unchanged. *)
Theorem update_setting_get_setting t key value :
  snd (update_setting t key value) = true /\
  forall k, get_setting (fst (update_setting t key value)) k =
    if String.eqb k key then option_map (fun _ => value) (get_setting t k)
    else get_setting t k.
Proof. split; [reflexivity | apply get_setting_update_setting]. Qed.

Lemma find_app_some_none {A : Type} (p : A -> bool) (l l' : list A) :
  find p (app l l') = match find p l with Some x => Some x | None => find p l' end.
Proof. induction l as [|x l IH]; simpl; [reflexivity|]; destruct (p x); auto. Qed.

Lemma find_insert_or_ignore k v l k' :
  find (fun r => String.eqb (set_key r) k') (insert_or_ignore_setting k v l) =
  match find (fun r => String.eqb (set_key r) k') l with
  | Some r => Some r
  | None => if String.eqb k k' then Some {| set_key := k; set_value := v |} else None
  end.
Proof.
  unfold insert_or_ignore_setting.
  destruct (existsb (fun r => String.eqb (set_key r) k) l) eqn:Ex.
  - destruct (find (fun r => String.eqb (set_key r) k') l) eqn:Hf; [reflexivity|].
    destruct (String.eqb k k') eqn:Hk; [|reflexivity].
    apply String.eqb_eq in Hk; subst k'.
    apply existsb_exists in Ex as [r [Hr Hrk]].
    rewrite (find_none _ _ Hf r Hr) in Hrk; discriminate.
  - rewrite find_app_some_none; simpl.
    destruct (find (fun r => String.eqb (set_key r) k') l); [reflexivity|].
    destruct (String.eqb k k'); reflexivity.
Qed.

Lemma settings_insert_or_ignore_faculty fid nm pw adm t :
  settings_tbl (insert_or_ignore_faculty fid nm pw adm t) = settings_tbl t /\
  tdb (insert_or_ignore_faculty fid nm pw adm t) = tdb t /\
  students_seq (insert_or_ignore_faculty fid nm pw adm t) = students_seq t.
Proof. unfold insert_or_ignore_faculty; destruct existsb; repeat split. Qed.

Lemma get_setting_create_tables t k :
  get_setting (create_tables t) k =
  match get_setting t k with Some v => Some v | None => default_setting k end.
Proof.
  unfold get_setting, create_tables.
  rewrite (proj1 (settings_insert_or_ignore_faculty _ _ _ _ _)); simpl.
  rewrite !find_insert_or_ignore.
  destruct (find (fun r => String.eqb (set_key r) k) (settings_tbl t)); [reflexivity|].
  unfold default_setting, default_settings; cbn -[String.eqb].
  destruct (String.eqb "telegram_bot_token" k); [reflexivity|].
  destruct (String.eqb "telegram_chat_id" k); [reflexivity|].
  destruct (String.eqb "attendance_threshold" k); [reflexivity|].
  destruct (String.eqb "admin_password" k); reflexivity.
Qed.







(** Extra X13. [create_tables] keeps the faculty table when an account "admin" exists; otherwise it adds one, and [verify_credentials("admin", "admin123")] then returns it as an administrator with the next faculty id. *)
Theorem create_tables_admin_login t :
  (In "admin" (map faculty_id (faculty_tbl t)) ->
     faculty_tbl (create_tables t) = faculty_tbl t) /\
  (~ In "admin" (map faculty_id (faculty_tbl t)) ->
     verify_credentials (create_tables t) "admin" "admin123" =
     Some {| fi_id := faculty_seq t + 1; fi_name := "Administrator"; fi_is_admin := true |}).
Proof.
  unfold create_tables, insert_or_ignore_faculty; simpl; split; intros H.
  - assert (E : existsb (fun f => String.eqb (faculty_id f) "admin") (faculty_tbl t) = true).
    { apply existsb_exists; apply in_map_iff in H as [f [Hf Hin]].
      exists f; split; [exact Hin | apply String.eqb_eq; exact Hf]. }
    rewrite E; reflexivity.
  - assert (E : existsb (fun f => String.eqb (faculty_id f) "admin") (faculty_tbl t) = false).
    { apply not_true_iff_false; intros Ex; apply H.
      apply existsb_exists in Ex as [f [Hin Hf]]; apply String.eqb_eq in Hf.
      apply in_map_iff; exists f; auto. }
    rewrite E; unfold verify_credentials; simpl.
    rewrite find_app_none; [reflexivity|].
    destruct (find _ (faculty_tbl t)) as [f|] eqn:Hf; [|reflexivity].
    exfalso; apply find_some in Hf as [Hin Hp]; apply andb_true_iff in Hp as [Hp _].
    apply String.eqb_eq in Hp; apply H, in_map_iff; exists f; auto.
Qed.


Lemma update_setting_spec t key value :
  exists t', update_setting t key value = (t', true) /\
    faculty_tbl t' = faculty_tbl t /\
    forall k, get_setting t' k =
      if String.eqb k key then option_map (fun _ => value) (get_setting t k)
      else get_setting t k.
Proof.
  exists (fst (update_setting t key value)); split; [reflexivity|].
  split; [reflexivity | apply get_setting_update_setting].
Qed.

(** Extra X14. [update_admin_password] never changes what [verify_credentials] accepts; on success it is the [admin_password] setting that holds the new password. *)
Theorem update_admin_password_login t p c :
  (forall fid pw, verify_credentials (fst (update_admin_password t p c)) fid pw =
                  verify_credentials t fid pw) /\
  (fst (snd (update_admin_password t p c)) = true ->
   get_setting (fst (update_admin_password t p c)) "admin_password" =
   option_map (fun _ => p) (get_setting t "admin_password")).
Proof.
  unfold update_admin_password.
  destruct (String.eqb p c); cbn -[update_setting]; [|split; [reflexivity | discriminate]].
  destruct (String.eqb p ""); cbn -[update_setting]; [split; [reflexivity | discriminate]|].
  destruct (update_setting_spec t "admin_password" p) as [t' [Hu [Hf Hg]]]; rewrite Hu;
    cbn -[get_setting verify_credentials].
  split.
  - intros fid pw; unfold verify_credentials; rewrite Hf; reflexivity.
  - intros _; rewrite Hg; reflexivity.
Qed.

(** Extra X15. When the stored bot token is missing or empty, the bot built by [TelegramBot.__init__] answers [test_connection] with "Bot token is not configured" and [send_message] with "Telegram bot not configured". *)
Theorem telegram_bot_unconfigured t message :
  get_setting t "telegram_bot_token" = None \/ get_setting t "telegram_bot_token" = Some "" ->
  test_connection (snd (telegram_bot_init t)) message = (false, "Bot token is not configured") /\
  send_message (snd (telegram_bot_init t)) message = (false, "Telegram bot not configured").
Proof.
  unfold telegram_bot_init; simpl; rewrite get_setting_create_tables.
  intros [-> | ->]; split; reflexivity.
Qed.

(** Extra X16. With a nonempty token made only of whitespace and a configured chat id, [send_message] reports success while [test_connection] reports that the bot token is not configured. *)
Theorem blank_token_checks_disagree b message tok :
  bot_token b = Some tok -> tok <> "" -> py_strip tok = "" ->
  not_or_blank (chat_id b) = false ->
  send_message b message = (true, "Message sent successfully (demo mode)") /\
  test_connection b message = (false, "Bot token is not configured").
Proof.
  intros Ht Hne Hs Hc; unfold send_message, test_connection, py_not_str, not_or_blank in *.
  rewrite Ht, Hs; apply String.eqb_neq in Hne; rewrite Hne.
  destruct (chat_id b) as [c|]; [|discriminate]; rewrite Hc; simpl.
  split; reflexivity.
Qed.

(** Extra X17. [update_settings] with an empty or missing token keeps the token of the bot and of the settings table, and answers success, with "Bot token cleared" when the current token is blank. *)
Theorem update_settings_empty_token t b new_token new_chat :
  py_not_str new_token = true ->
  let r := update_settings t b new_token new_chat in
  bot_token (snd (fst r)) = bot_token b /\
  get_setting (fst (fst r)) "telegram_bot_token" = get_setting t "telegram_bot_token" /\
  snd r = (true, if not_or_blank (bot_token b) then "Bot token cleared"
                 else "Settings updated successfully (demo mode)").
Proof.
  intros Hn; destruct new_token as [tok|]; simpl in Hn;
    [apply String.eqb_eq in Hn; subst tok|];
  unfold update_settings; cbn -[update_setting get_setting not_or_blank];
  (destruct new_chat as [c|];
   [destruct (String.eqb c "") eqn:Ec; cbn -[update_setting get_setting not_or_blank]|]).
  all: try (destruct (update_setting_spec t "telegram_chat_id" c) as [t' [Hu [_ Hg]]];
            rewrite Hu; cbn -[get_setting not_or_blank]; rewrite ?Hg).
  all: destruct (not_or_blank (bot_token b)); simpl; auto.
Qed.


(** Extra X18. [update_settings] with a nonempty token and chat id sets both on the bot; a bot built afresh from the tables afterwards sees them only where the setting row existed before, and the empty string otherwise. *)
Theorem update_settings_persist t b tok chat :
  tok <> "" -> chat <> "" ->
  let r := update_settings t b (Some tok) (Some chat) in
  bot_token (snd (fst r)) = Some tok /\ chat_id (snd (fst r)) = Some chat /\
  snd (telegram_bot_init (fst (fst r))) =
    {| bot_token := Some (match get_setting t "telegram_bot_token" with
                          | Some _ => tok | None => "" end);
       chat_id := Some (match get_setting t "telegram_chat_id" with
                        | Some _ => chat | None => "" end) |}.
Proof.
  intros Ht Hc; apply String.eqb_neq in Ht, Hc.
  unfold update_settings; cbn -[update_setting get_setting not_or_blank]; rewrite Ht.
  destruct (update_setting_spec t "telegram_bot_token" tok) as [t1 [Hu1 [_ Hg1]]].
  rewrite Hu1; cbn -[update_setting get_setting not_or_blank]; rewrite Hc.
  destruct (update_setting_spec t1 "telegram_chat_id" chat) as [t2 [Hu2 [_ Hg2]]].
  rewrite Hu2; cbn -[get_setting not_or_blank telegram_bot_init].
  assert (Hfin : forall x : telegram_bot * (bool * string),
             snd (fst (t2, fst x, snd x)) = fst x) by reflexivity.
  destruct (not_or_blank (Some tok)); cbn -[get_setting telegram_bot_init];
  (split; [reflexivity | split; [reflexivity|]]);
  unfold telegram_bot_init; cbn -[get_setting create_tables];
  rewrite !get_setting_create_tables, !Hg2, !Hg1; cbn -[get_setting];
  destruct (get_setting t "telegram_bot_token"), (get_setting t "telegram_chat_id"); reflexivity.
Qed.

(** *** Student rows *)

Lemma with_students_eta t : with_students t (students (tdb t)) (students_seq t) = t.
Proof. destruct t as [[] ? ? ? ?]; reflexivity. Qed.

Lemma NoDup_snoc {A : Type} (l : list A) x : NoDup l -> ~ In x l -> NoDup (app l [x]).
Proof.
  intros H Hx; apply NoDup_app; [exact H | repeat constructor; simpl; tauto|].
  intros a Ha [<- | []]; contradiction.
Qed.

Lemma NoDup_map_filter {A B : Type} (f : A -> B) (p : A -> bool) l :
  NoDup (map f l) -> NoDup (map f (filter p l)).
Proof.
  induction l as [|x l IH]; simpl; intros H; [constructor|].
  inversion H as [|? ? Hx Hl]; subst.
  destruct (p x); simpl; [constructor|]; auto.
  intros Hin; apply Hx; apply in_map_iff in Hin as [y [Hy Hin]].
  apply filter_In in Hin as [Hin _]; rewrite <- Hy; apply in_map; exact Hin.
Qed.

Lemma existsb_roll_in roll l :
  existsb (fun s => String.eqb (roll_no s) roll) l = true <-> In roll (map roll_no l).
Proof.
  rewrite existsb_exists, in_map_iff; split.
  - intros [s [Hs E]]; apply String.eqb_eq in E; exists s; auto.
  - intros [s [E Hs]]; exists s; split; [exact Hs | apply String.eqb_eq; exact E].
Qed.

Lemma existsb_id_in sid l :
  existsb (fun s => Z.eqb (s_id s) sid) l = true <-> In sid (map s_id l).
Proof.
  rewrite existsb_exists, in_map_iff; split.
  - intros [s [Hs E]]; apply Z.eqb_eq in E; exists s; auto.
  - intros [s [E Hs]]; exists s; split; [exact Hs | apply Z.eqb_eq; exact E].
Qed.

Lemma fresh_student_id t : students_ok t -> ~ In (students_seq t + 1)%Z (map s_id (students (tdb t))).
Proof.
  intros [_ [_ Hle]] Hin; apply in_map_iff in Hin as [s [E Hs]].
  rewrite Forall_forall in Hle; specialize (Hle s Hs); lia.
Qed.


Lemma update_rolls_NoDup (l : list student) sid roll :
  NoDup (map s_id l) -> NoDup (map roll_no l) ->
  (forall s, In s l -> s_id s <> sid -> roll_no s <> roll) ->
  NoDup (map (fun s => if Z.eqb (s_id s) sid then roll else roll_no s) l).
Proof.
  induction l as [|s l IH]; simpl; intros Hid Hroll H; [constructor|].
  inversion Hid as [|? ? Hsid Hid']; inversion Hroll as [|? ? Hsroll Hroll']; subst.
  constructor; [|apply IH; auto].
  intros Hin; apply in_map_iff in Hin as [s' [E Hs']].
  destruct (Z.eqb (s_id s) sid) eqn:E1, (Z.eqb (s_id s') sid) eqn:E2;
    apply Z.eqb_eq in E1 || apply Z.eqb_neq in E1;
    apply Z.eqb_eq in E2 || apply Z.eqb_neq in E2.
  - apply Hsid; rewrite E1, <- E2; apply in_map; exact Hs'.
  - apply (H s' (or_intror Hs') E2); exact E.
  - apply (H s (or_introl eq_refl) E1); exact (eq_sym E).
  - apply Hsroll; rewrite <- E; apply in_map; exact Hs'.
Qed.

(** Extra X2. [add_student], [update_student] and [delete_student] keep the student ids unique, the roll numbers unique and every id at most the AUTOINCREMENT counter. *)
Theorem student_ops_keep_keys json_dumps t :
  students_ok t ->
  (forall roll nm br sem sec em enc,
     students_ok (fst (add_student json_dumps t roll nm br sem sec em enc))) /\
  (forall sid roll nm br sem sec em enc,
     students_ok (fst (update_student json_dumps t sid roll nm br sem sec em enc))) /\
  (forall sid, students_ok (fst (delete_student t sid))).
Proof.
  intros Hok; split; [|split].
  - intros roll nm br sem sec em enc; unfold add_student.
    destruct (existsb (fun s => String.eqb (roll_no s) roll) (students (tdb t))) eqn:E;
      [exact Hok|].
    destruct Hok as [Hid [Hroll Hle]]; unfold students_ok; simpl.
    rewrite !map_app; simpl; split; [|split].
    + apply NoDup_snoc; [exact Hid|]; apply fresh_student_id; repeat split; assumption.
    + apply NoDup_snoc; [exact Hroll|].
      rewrite <- existsb_roll_in, E; discriminate.
    + apply Forall_app; split; [|repeat constructor; simpl; lia].
      eapply Forall_impl; [|exact Hle]; simpl; intros; lia.
  - intros sid roll nm br sem sec em enc; unfold update_student.
    destruct (existsb (fun s => Z.eqb (s_id s) sid) (students (tdb t)) &&
              existsb (fun s => negb (Z.eqb (s_id s) sid) && String.eqb (roll_no s) roll)
                (students (tdb t))) eqn:E; [exact Hok|].
    destruct Hok as [Hid [Hroll Hle]]; unfold students_ok; simpl.
    rewrite !map_map; simpl.
    assert (Hids : map (fun s => s_id (if Z.eqb (s_id s) sid then
                       {| s_id := s_id s; roll_no := roll; name := nm; branch := br;
                          semester := sem; section := sec; email := em;
                          face_encoding := match enc with
                                           | Some v => Some (encode_face_encoding json_dumps v)
                                           | None => face_encoding s end |} else s))
                     (students (tdb t)) = map s_id (students (tdb t))).
    { apply map_ext; intros s; destruct (Z.eqb (s_id s) sid); reflexivity. }
    rewrite Hids; split; [exact Hid|split].
    + assert (Hr : map (fun s => roll_no (if Z.eqb (s_id s) sid then
                       {| s_id := s_id s; roll_no := roll; name := nm; branch := br;
                          semester := sem; section := sec; email := em;
                          face_encoding := match enc with
                                           | Some v => Some (encode_face_encoding json_dumps v)
                                           | None => face_encoding s end |} else s))
                     (students (tdb t)) =
                   map (fun s => if Z.eqb (s_id s) sid then roll else roll_no s) (students (tdb t))).
      { apply map_ext; intros s; destruct (Z.eqb (s_id s) sid); reflexivity. }
      rewrite Hr.
      apply andb_false_iff in E as [E | E].
      * assert (Hm : map (fun s => if Z.eqb (s_id s) sid then roll else roll_no s) (students (tdb t))
                     = map roll_no (students (tdb t))).
        { apply map_ext_in; intros s Hs.
          destruct (Z.eqb (s_id s) sid) eqn:Es; [|reflexivity].
          exfalso; apply Z.eqb_eq in Es.
          assert (Hin : In sid (map s_id (students (tdb t)))) by (rewrite <- Es; apply in_map, Hs).
          apply existsb_id_in in Hin; congruence. }
        rewrite Hm; exact Hroll.
      * apply update_rolls_NoDup; [exact Hid | exact Hroll|].
        intros s Hs Hne Heq; apply Z.eqb_neq in Hne.
        rewrite <- not_true_iff_false, existsb_exists in E; apply E.
        exists s; split; [exact Hs|]; rewrite Hne, Heq, String.eqb_refl; reflexivity.
    + rewrite Forall_map; eapply Forall_impl; [|exact Hle].
      intros s; destruct (Z.eqb (s_id s) sid); simpl; auto.
  - intros sid; destruct Hok as [Hid [Hroll Hle]]; unfold students_ok, delete_student; simpl.
    split; [apply NoDup_map_filter, Hid|split; [apply NoDup_map_filter, Hroll|]].
    apply Forall_forall; intros s Hs; apply filter_In in Hs as [Hs _].
    rewrite Forall_forall in Hle; apply Hle, Hs.
Qed.

Lemma find_id_absent i (l : list student) :
  ~ In i (map s_id l) -> find (fun s => Z.eqb (s_id s) i) l = None.
Proof.
  intros H.
  destruct (find (fun s => Z.eqb (s_id s) i) l) as [s|] eqn:E; [exfalso|reflexivity].
  apply find_some in E as [Hs Ei]; apply Z.eqb_eq in Ei.
  apply H; rewrite <- Ei; apply in_map, Hs.
Qed.

Lemma decode_stored json_loads json_dumps v :
  json_dumps v <> "" -> json_loads (json_dumps v) = Some v ->
  (if String.eqb (blob_text (encode_face_encoding json_dumps v)) "" then None
   else Some (decode_face_encoding json_loads (encode_face_encoding json_dumps v))) = Some v.
Proof.
  intros Hne Hl; simpl; apply String.eqb_neq in Hne; rewrite Hne, Hl; reflexivity.
Qed.

(** Extra X3. After a successful [add_student], [get_student] of the new id returns the given fields and vector (when the encoder gives a nonempty JSON text that decodes back to the vector); [get_student] of every other id is unchanged. *)
Theorem add_student_get_student json_loads json_dumps t roll nm br sem sec em enc t' id :
  students_ok t ->
  (forall v, enc = Some v -> json_dumps v <> "" /\ json_loads (json_dumps v) = Some v) ->
  add_student json_dumps t roll nm br sem sec em enc = (t', (true, PInt id)) ->
  get_student json_loads t' id =
    Some {| i_id := id; i_roll_no := roll; i_name := nm; i_branch := br;
            i_semester := sem; i_section := sec; i_email := em; i_face_encoding := enc |} /\
  (forall sid, sid <> id -> get_student json_loads t' sid = get_student json_loads t sid).
Proof.
  intros Hok Henc Hadd; unfold add_student in Hadd.
  destruct (existsb (fun s => String.eqb (roll_no s) roll) (students (tdb t)));
    [discriminate|].
  injection Hadd as <- Hid; subst id.
  unfold get_student; simpl.
  split.
  - rewrite find_app_some_none, find_id_absent by (apply fresh_student_id, Hok); simpl.
    rewrite Z.eqb_refl; do 2 f_equal.
    destruct enc as [v|]; [|reflexivity].
    destruct (Henc v eq_refl) as [Hne Hl]; apply (decode_stored json_loads json_dumps v Hne Hl).
  - intros sid Hne; rewrite find_app_some_none.
    destruct (find (fun s => Z.eqb (s_id s) sid) (students (tdb t))); [reflexivity|].
    simpl; apply Z.eqb_neq in Hne; rewrite Z.eqb_sym, Hne; reflexivity.
Qed.

(** Extra X4. [update_student] on an id with no row changes nothing and still answers [(True, "Student updated successfully")]. *)
Theorem update_student_missing_id json_dumps t sid roll nm br sem sec em enc :
  ~ In sid (map s_id (students (tdb t))) ->
  update_student json_dumps t sid roll nm br sem sec em enc =
    (t, (true, "Student updated successfully")).
Proof.
  intros H; unfold update_student.
  assert (E : existsb (fun s => Z.eqb (s_id s) sid) (students (tdb t)) = false)
    by (apply not_true_iff_false; rewrite existsb_id_in; exact H).
  rewrite E; simpl.
  rewrite map_ext_in with (g := fun s => s).
  - rewrite map_id, with_students_eta; reflexivity.
  - intros s Hs; destruct (Z.eqb (s_id s) sid) eqn:Es; [|reflexivity].
    exfalso; apply H; apply Z.eqb_eq in Es; rewrite <- Es; apply in_map, Hs.
Qed.

Lemma roll_conflict_iff (ss : list student) sid roll :
  existsb (fun s => Z.eqb (s_id s) sid) ss &&
  existsb (fun s => negb (Z.eqb (s_id s) sid) && String.eqb (roll_no s) roll) ss = true <->
  In sid (map s_id ss) /\ exists s, In s ss /\ s_id s <> sid /\ roll_no s = roll.
Proof.
  rewrite andb_true_iff, existsb_id_in, existsb_exists.
  split; intros [H1 [s [Hs E]]]; split; auto; exists s.
  - apply andb_true_iff in E as [E1 E2]; apply negb_true_iff, Z.eqb_neq in E1.
    apply String.eqb_eq in E2; auto.
  - destruct E as [E1 E2]; split; [exact Hs|].
    apply Z.eqb_neq in E1; rewrite E1, E2, String.eqb_refl; reflexivity.
Qed.

(** Extra X5. [update_student] fails with "Roll number already exists" and changes nothing exactly when the id exists and another student has the new roll number; otherwise [get_student] of the id shows the new fields, with the new vector when one is passed and the old one otherwise, and no other id changes. *)
Theorem update_student_effect json_loads json_dumps t sid roll nm br sem sec em enc :
  (forall v, enc = Some v -> json_dumps v <> "" /\ json_loads (json_dumps v) = Some v) ->
  let ss := students (tdb t) in
  let r := update_student json_dumps t sid roll nm br sem sec em enc in
  let conflict := In sid (map s_id ss) /\
                  exists s, In s ss /\ s_id s <> sid /\ roll_no s = roll in
  (conflict -> r = (t, (false, "Roll number already exists"))) /\
  (~ conflict ->
     snd r = (true, "Student updated successfully") /\
     get_student json_loads (fst r) sid =
       option_map (fun i => {| i_id := sid; i_roll_no := roll; i_name := nm; i_branch := br;
                              i_semester := sem; i_section := sec; i_email := em;
                              i_face_encoding := match enc with
                                                 | Some v => Some v
                                                 | None => i_face_encoding i
                                                 end |})
         (get_student json_loads t sid) /\
     (forall sid', sid' <> sid -> get_student json_loads (fst r) sid' = get_student json_loads t sid')).
Proof.
  intros Henc ss r conflict; subst ss r conflict; unfold update_student.
  split; intros Hc.
  - apply roll_conflict_iff in Hc; rewrite Hc; reflexivity.
  - assert (E : existsb (fun s => Z.eqb (s_id s) sid) (students (tdb t)) &&
                existsb (fun s => negb (Z.eqb (s_id s) sid) && String.eqb (roll_no s) roll)
                  (students (tdb t)) = false)
      by (apply not_true_iff_false; rewrite roll_conflict_iff; exact Hc).
    rewrite E; split; [reflexivity|]; unfold get_student; simpl.
    split; [|intros sid' Hne];
      rewrite find_map_preserve
        by (intros s; destruct (Z.eqb (s_id s) sid) eqn:Es; simpl; rewrite ?Es; reflexivity);
      destruct (find _ (students (tdb t))) as [s|] eqn:Ef; try reflexivity;
      apply find_some in Ef as [_ Es]; apply Z.eqb_eq in Es; simpl.
    + rewrite Es, Z.eqb_refl; simpl; do 2 f_equal.
      destruct enc as [v|]; [|reflexivity].
      destruct (Henc v eq_refl) as [Hne Hl]; apply (decode_stored json_loads json_dumps v Hne Hl).
    + assert (Es' : Z.eqb (s_id s) sid = false) by (rewrite Es; apply Z.eqb_neq; exact Hne).
      rewrite Es'; reflexivity.
Qed.

(** Extra X6. [delete_student] removes the student but leaves the attendance table as it is; the students records no longer join, so none of them is an unsynced row and [sync_pending_attendance] never marks them synced, whatever the transport answers. *)
Theorem delete_student_orphans json_loads deliver t sid :
  NoDup (map a_id (attendance_tbl (tdb t))) ->
  let t' := fst (delete_student t sid) in
  snd (delete_student t sid) = (true, "Student deleted successfully") /\
  get_student json_loads t' sid = None /\
  attendance_tbl (tdb t') = attendance_tbl (tdb t) /\
  (forall r, In r (get_unsynced_attendance (tdb t')) -> r_student_id r <> sid) /\
  (forall a, In a (attendance_tbl (tdb t)) -> student_id a = sid ->
     In a (attendance_tbl (fst (fst (sync_pending_attendance deliver (tdb t')))))).
Proof.
  intros Hnd t'; subst t'; unfold delete_student; cbn [fst snd].
  set (ss := filter (fun s => negb (Z.eqb (s_id s) sid)) (students (tdb t))).
  assert (Hss : forall s, In s (students (tdb (with_students t ss (students_seq t)))) ->
                          s_id s <> sid).
  { intros s Hs; simpl in Hs; subst ss; apply filter_In in Hs as [_ E].
    apply negb_true_iff, Z.eqb_neq in E; exact E. }
  assert (Hrow : forall r, In r (get_unsynced_attendance (tdb (with_students t ss (students_seq t)))) ->
            exists a, In a (attendance_tbl (tdb t)) /\ r_id r = a_id a /\ student_id a <> sid /\
                      r_student_id r = student_id a).
  { intros r Hr; apply In_get_unsynced in Hr as [a [Ha [_ Hj]]].
    apply In_join_rows_fields in Hj
      as [Hid [_ [_ [_ [Hst [_ [s [_ [Hs [_ [Hsa _]]]]]]]]]]].
    exists a; split; [exact Ha|]; split; [exact Hid|]; split; [|exact Hst].
    rewrite <- Hsa; apply Hss, Hs. }
  split; [reflexivity|]; split; [|split; [reflexivity|split]].
  - unfold get_student; simpl; subst ss.
    destruct (find _ (filter _ _)) as [s|] eqn:Ef; [exfalso|reflexivity].
    apply find_some in Ef as [Hs E]; apply filter_In in Hs as [_ E'].
    rewrite E in E'; discriminate.
  - intros r Hr; destruct (Hrow r Hr) as [a [_ [_ [Hne ->]]]]; exact Hne.
  - intros a Ha Hsa.
    destruct (sync_pending_effect deliver (tdb (with_students t ss (students_seq t))))
      as [_ [_ Htbl]].
    rewrite Htbl; simpl.
    assert (Hm : sync_mark (succeeded_ids deliver
                   (groupby (get_unsynced_attendance (tdb (with_students t ss (students_seq t)))))) a = a).
    { unfold sync_mark.
      destruct (existsb _ _) eqn:Ex; [exfalso|reflexivity].
      apply existsb_eqb_true, In_succeeded_ids in Ex as [k [g [Hg [_ [_ Hi]]]]].
      apply in_map_iff in Hi as [r [Hid Hr]].
      destruct (groupby_member _ k g r Hg Hr) as [Hr' _].
      destruct (Hrow r Hr') as [a' [Ha' [Hid' [Hne _]]]].
      assert (a' = a) by (apply (NoDup_map_eq a_id (attendance_tbl (tdb t))); congruence).
      subst a'; contradiction. }
    rewrite <- Hm; apply in_map, Ha.
Qed.

(** *** [mark_attendance] and the upload mode *)

Lemma att_key_eqb_true sid subid d a :
  att_key_eqb sid subid d a = true <->
  student_id a = sid /\ subject_id a = subid /\ a_date a = d.
Proof.
  unfold att_key_eqb; rewrite !andb_true_iff, !Z.eqb_eq, String.eqb_eq; tauto.
Qed.

Lemma mark_attendance_ledger db sid subid st sync d t :
  ledger_ok db -> ledger_ok (fst (mark_attendance db sid subid st sync d t)).
Proof.
  intros [Hnd Hle]; unfold mark_attendance.
  destruct (find (att_key_eqb sid subid d) (attendance_tbl db)) as [e|]; simpl;
    unfold ledger_ok; simpl.
  - unfold update_attendance; rewrite map_map.
    rewrite map_ext with (g := a_id) by (intros a; destruct (Z.eqb (a_id a) (a_id e)); reflexivity).
    split; [exact Hnd|].
    rewrite Forall_map; eapply Forall_impl; [|exact Hle].
    intros a; destruct (Z.eqb (a_id a) (a_id e)); simpl; auto.
  - rewrite map_app; simpl; split.
    + apply NoDup_snoc; [exact Hnd|]; intros Hin.
      apply in_map_iff in Hin as [a [E Ha]]; rewrite Forall_forall in Hle.
      specialize (Hle a Ha); lia.
    + apply Forall_app; split; [|repeat constructor; simpl; lia].
      eapply Forall_impl; [|exact Hle]; simpl; intros; lia.
Qed.

Lemma mark_attendance_other_keys db sid subid st sync d t sid' subid' d' :
  NoDup (map a_id (attendance_tbl db)) -> (sid', subid', d') <> (sid, subid, d) ->
  key_records sid' subid' d' (fst (mark_attendance db sid subid st sync d t)) =
  key_records sid' subid' d' db.
Proof.
  intros Hnd Hk; unfold key_records, mark_attendance.
  destruct (find (att_key_eqb sid subid d) (attendance_tbl db)) as [e|] eqn:Hf; simpl.
  - unfold update_attendance; rewrite filter_map_preserve by apply att_key_eqb_update.
    apply find_some in Hf as [He Hke]; apply att_key_eqb_true in Hke.
    rewrite map_ext_in with (g := fun a => a); [apply map_id|].
    intros a Ha; apply filter_In in Ha as [Ha Hka]; apply att_key_eqb_true in Hka.
    destruct (Z.eqb (a_id a) (a_id e)) eqn:E; [exfalso|reflexivity].
    apply Z.eqb_eq in E.
    assert (a = e) by exact (NoDup_map_eq a_id _ a e Hnd Ha He E); subst a.
    destruct Hka as [E1 [E2 E3]], Hke as [F1 [F2 F3]].
    apply Hk; f_equal; [f_equal|]; congruence.
  - rewrite filter_app; simpl.
    destruct (att_key_eqb sid' subid' d' _) eqn:E; [exfalso|apply app_nil_r].
    apply att_key_eqb_true in E; simpl in E; destruct E as [-> [-> ->]]; apply Hk; reflexivity.
Qed.

Lemma key_records_nil_find sid subid d db :
  key_records sid subid d db = [] <-> find (att_key_eqb sid subid d) (attendance_tbl db) = None.
Proof.
  unfold key_records; induction (attendance_tbl db) as [|a l IH]; simpl; [tauto|].
  destruct (att_key_eqb sid subid d a); [split; discriminate | exact IH].
Qed.

(** Extra X21. [mark_attendance] always answers success, keeps the attendance ids unique and bounded, keeps students and subjects, adds a row exactly when the key had no record, and changes no other keys records. *)
Theorem mark_attendance_frame db sid subid st sync d t :
  ledger_ok db ->
  let r := mark_attendance db sid subid st sync d t in
  snd r = (true, "Attendance marked successfully") /\
  ledger_ok (fst r) /\
  students (fst r) = students db /\ subjects (fst r) = subjects db /\
  List.length (attendance_tbl (fst r)) =
    match key_records sid subid d db with
    | [] => S (List.length (attendance_tbl db))
    | _ :: _ => List.length (attendance_tbl db)
    end /\
  (forall sid' subid' d', (sid', subid', d') <> (sid, subid, d) ->
     key_records sid' subid' d' (fst r) = key_records sid' subid' d' db).
Proof.
  intros Hok r; subst r.
  split; [unfold mark_attendance; destruct find; reflexivity|].
  split; [apply mark_attendance_ledger, Hok|].
  split; [unfold mark_attendance; destruct find; reflexivity|].
  split; [unfold mark_attendance; destruct find; reflexivity|].
  split; [|intros; apply mark_attendance_other_keys; [apply Hok | assumption]].
  unfold mark_attendance.
  destruct (find (att_key_eqb sid subid d) (attendance_tbl db)) eqn:Hf; simpl.
  - assert (Hne : key_records sid subid d db <> []) by (rewrite key_records_nil_find; congruence).
    destruct (key_records sid subid d db); [contradiction|].
    unfold update_attendance; apply length_map.
  - apply key_records_nil_find in Hf; rewrite Hf, length_app; simpl; lia.
Qed.

(** Extra X19. The enrollment form succeeds exactly when roll number and name are nonempty, exactly one face is detected and the roll number is new; it then appends one student whose stored encoding is the JSON of the all-ones vector, and otherwise leaves the tables unchanged. *)
Theorem enroll_student_outcome (image : Type) (detect_faces : image -> list location)
    json_dumps t roll nm br sem sec em img :
  let r := enroll_student image detect_faces json_dumps t roll nm br sem sec em (Some img) in
  let ok := roll <> "" /\ nm <> "" /\ List.length (detect_faces img) = 1%nat /\
            ~ In roll (map roll_no (students (tdb t))) in
  (fst (snd r) = true <-> ok) /\
  (ok -> fst r = with_students t
                   (app (students (tdb t))
                      [{| s_id := students_seq t + 1; roll_no := roll; name := nm;
                          branch := br; semester := sem; section := sec; email := em;
                          face_encoding := Some (BlobBytes (json_dumps ones128)) |}])
                   (students_seq t + 1)) /\
  (~ ok -> fst r = t).
Proof.
  intros r ok; subst r ok; unfold enroll_student.
  destruct (String.eqb roll "") eqn:Er; [apply String.eqb_eq in Er|apply String.eqb_neq in Er];
  [cbn; split; [split; [discriminate | intros [H _]; contradiction]|];
   split; [intros [H _]; contradiction | reflexivity]|].
  destruct (String.eqb nm "") eqn:En; [apply String.eqb_eq in En|apply String.eqb_neq in En];
  [cbn; split; [split; [discriminate | intros [_ [H _]]; contradiction]|];
   split; [intros [_ [H _]]; contradiction | reflexivity]|].
  cbn [orb]; unfold get_face_encoding.
  destruct (detect_faces img) as [|x [|y l]] eqn:Hd; cbn -[add_student].
  - split; [split; [discriminate | intros [_ [_ [H _]]]; discriminate]|].
    split; [intros [_ [_ [H _]]]; discriminate | reflexivity].
  - unfold add_student.
    destruct (existsb (fun s => String.eqb (roll_no s) roll) (students (tdb t))) eqn:Ex;
      cbn.
    + assert (Hin : In roll (map roll_no (students (tdb t)))) by (apply existsb_roll_in, Ex).
      split; [split; [discriminate | intros [_ [_ [_ H]]]; contradiction]|].
      split; [intros [_ [_ [_ H]]]; contradiction | reflexivity].
    + assert (Hin : ~ In roll (map roll_no (students (tdb t))))
        by (rewrite <- existsb_roll_in, Ex; discriminate).
      split; [split; [intros _; auto | reflexivity]|].
      split; [reflexivity | intros H; exfalso; apply H; auto].
  - split; [split; [discriminate | intros [_ [_ [H _]]]; discriminate]|].
    split; [intros [_ [_ [H _]]]; discriminate | reflexivity].
Qed.

Lemma mark_recognized_ones db subj clock d i (locs : list location) rc uc :
  (forall j, (i <= j < i + List.length locs)%nat -> fst (clock j) = d) ->
  mark_recognized db subj clock i
    (combine (map (fun _ => 1%Z) locs) (map (fun _ => "Student") locs)) rc uc =
  (run_marks db 1 subj d (upload_calls clock i (List.length locs)),
   (rc + List.length locs, uc)%nat).
Proof.
  revert db i rc; induction locs as [|x locs IH]; intros db i rc Hc; simpl.
  - rewrite Nat.add_0_r; reflexivity.
  - rewrite (Hc i) by (simpl; lia).
    destruct (mark_attendance db 1 subj "present" false d (snd (clock i))) as [db' [succ msg]] eqn:Em.
    assert (succ = true) as -> by (unfold mark_attendance in Em; destruct find; congruence).
    rewrite IH by (intros j Hj; apply Hc; simpl; lia); simpl.
    unfold upload_calls; simpl; f_equal; f_equal; lia.
Qed.

Lemma run_marks_ledger db sid subid d calls :
  ledger_ok db -> ledger_ok (run_marks db sid subid d calls).
Proof.
  revert db; induction calls as [|c cs IH]; intros db H; simpl; [exact H|].
  apply IH, mark_attendance_ledger, H.
Qed.

Lemma run_marks_other_keys db sid subid d calls sid' subid' d' :
  ledger_ok db -> (sid', subid', d') <> (sid, subid, d) ->
  key_records sid' subid' d' (run_marks db sid subid d calls) = key_records sid' subid' d' db.
Proof.
  revert db; induction calls as [|c cs IH]; intros db H Hk; simpl; [reflexivity|].
  rewrite IH by (try apply mark_attendance_ledger; assumption).
  apply mark_attendance_other_keys; [apply H | exact Hk].
Qed.

Lemma run_marks_last db sid subid d calls last :
  (List.length (key_records sid subid d db) <= 1)%nat ->
  exists r, key_records sid subid d (run_marks db sid subid d (app calls [last])) = [r]
            /\ status r = mc_status last /\ a_time r = mc_time last /\ synced r = mc_sync last.
Proof.
  revert db; induction calls as [|c cs IH]; intros db Hle; simpl.
  - exact (mark_attendance_key_records db sid subid (mc_status last) (mc_sync last)
             d (mc_time last) Hle).
  - apply IH.
    destruct (mark_attendance_key_records db sid subid (mc_status c) (mc_sync c)
                d (mc_time c) Hle) as [r [Hr _]].
    rewrite Hr; simpl; lia.
Qed.

Lemma upload_calls_last clock n :
  upload_calls clock 0 (S n) =
  app (upload_calls clock 0 n)
    [{| mc_status := "present"; mc_sync := false; mc_time := snd (clock n) |}].
Proof. unfold upload_calls; rewrite seq_S, map_app; reflexivity. Qed.

(** Extra X20. With a subject selected, every call on one date and at most one earlier record of (student 1, subject, date), the upload mode counts every detected face as recognised, leaves one record of that key, present, unsynced and at the time of the last call, keeps the ids unique and bounded, and changes no other key. *)
Theorem take_attendance_upload_marks (image : Type) (detect_faces : image -> list location)
    db g img thr subj clock d :
  subj <> 0%Z -> ledger_ok db ->
  (List.length (key_records 1 subj d db) <= 1)%nat ->
  detect_faces img <> [] ->
  (forall i, (i < List.length (detect_faces img))%nat -> fst (clock i) = d) ->
  let n := List.length (detect_faces img) in
  exists db',
    take_attendance_upload image detect_faces db g img thr (Some subj) clock =
      Some (db', (n, 0%nat)) /\
    ledger_ok db' /\
    (exists a, key_records 1 subj d db' = [a] /\ status a = "present" /\
               synced a = false /\ a_time a = snd (clock (pred n))) /\
    (forall sid' subid' d', (sid', subid', d') <> (1%Z, subj, d) ->
       key_records sid' subid' d' db' = key_records sid' subid' d' db).
Proof.
  intros Hs Hok Hle Hne Hc n; subst n.
  unfold take_attendance_upload; apply Z.eqb_neq in Hs; rewrite Hs.
  unfold recognize_faces.
  rewrite (mark_recognized_ones db subj clock d 0 (detect_faces img) 0 0)
    by (intros j Hj; apply Hc; lia).
  eexists; split; [reflexivity|].
  split; [apply run_marks_ledger, Hok|].
  split; [|intros; apply run_marks_other_keys; assumption].
  destruct (detect_faces img) as [|x l]; [contradiction|].
  cbn [List.length pred].
  rewrite upload_calls_last.
  destruct (run_marks_last db 1 subj d (upload_calls clock 0 (List.length l))
              {| mc_status := "present"; mc_sync := false; mc_time := snd (clock (List.length l)) |}
              Hle) as [a [Ha [Hst [Ht Hsy]]]].
  exists a; auto.
Qed.

(* ------------------------------------------------------------------ *)
(** ** Instances of the hypotheses of the further properties *)


Lemma student_ops_keep_keys_witness :
  students_ok student_tables /\ students_ok (fst (delete_student student_tables 1)).
Proof.
  assert (H : students_ok student_tables)
    by (unfold students_ok; simpl; split; [|split];
        repeat constructor; simpl; try lia; intros [E | []]; discriminate).
  split; [exact H|].
  apply (proj2 (proj2 (student_ops_keep_keys dumps_one student_tables H))).
Defined.

Lemma add_student_get_student_witness :
  students_ok student_tables /\
  add_student dumps_one student_tables "R3" "S3" "ECE" 5 "B" None (Some [1%Q]) =
    (fst (add_student dumps_one student_tables "R3" "S3" "ECE" 5 "B" None (Some [1%Q])),
     (true, PInt 3)) /\
  get_student loads_one
    (fst (add_student dumps_one student_tables "R3" "S3" "ECE" 5 "B" None (Some [1%Q]))) 3 =
    Some {| i_id := 3; i_roll_no := "R3"; i_name := "S3"; i_branch := "ECE";
            i_semester := 5; i_section := "B"; i_email := None;
            i_face_encoding := Some [1%Q] |}.
Proof.
  assert (H : students_ok student_tables)
    by (unfold students_ok; simpl; split; [|split];
        repeat constructor; simpl; try lia; intros [E | []]; discriminate).
  assert (Henc : forall v, Some [1%Q] = Some v ->
                 dumps_one v <> "" /\ loads_one (dumps_one v) = Some v)
    by (intros v Hv; injection Hv as <-; split; [discriminate | reflexivity]).
  assert (Hadd : add_student dumps_one student_tables "R3" "S3" "ECE" 5 "B" None (Some [1%Q]) =
                 (fst (add_student dumps_one student_tables "R3" "S3" "ECE" 5 "B" None
                         (Some [1%Q])), (true, PInt 3))) by reflexivity.
  split; [exact H|]; split; [exact Hadd|].
  apply (proj1 (add_student_get_student loads_one dumps_one student_tables "R3" "S3" "ECE" 5 "B"
                  None (Some [1%Q]) _ 3 H Henc Hadd)).
Defined.

Lemma update_student_missing_id_witness :
  ~ In 7%Z (map s_id (students (tdb student_tables))) /\
  update_student dumps_one student_tables 7 "R9" "S9" "ECE" 5 "B" None None =
    (student_tables, (true, "Student updated successfully")).
Proof.
  assert (H : ~ In 7%Z (map s_id (students (tdb student_tables)))) by (simpl; lia).
  split; [exact H|].
  apply (update_student_missing_id dumps_one student_tables 7 "R9" "S9" "ECE" 5 "B" None None H).
Defined.

Lemma update_student_effect_witness :
  (forall v, Some [1%Q] = Some v -> dumps_one v <> "" /\ loads_one (dumps_one v) = Some v) /\
  update_student dumps_one student_tables 1 "R2" "S1" "CSE" 3 "A" None (Some [1%Q]) =
    (student_tables, (false, "Roll number already exists")).
Proof.
  assert (Henc : forall v, Some [1%Q] = Some v ->
                 dumps_one v <> "" /\ loads_one (dumps_one v) = Some v)
    by (intros v Hv; injection Hv as <-; split; [discriminate | reflexivity]).
  split; [exact Henc|].
  apply (proj1 (update_student_effect loads_one dumps_one student_tables 1 "R2" "S1" "CSE" 3 "A"
                  None (Some [1%Q]) Henc)).
  split; [simpl; auto|].
  exists (sample_student 2 "R2" "S2"); simpl; split; [auto | split; [lia | reflexivity]].
Defined.

Lemma delete_student_orphans_witness :
  NoDup (map a_id (attendance_tbl (tdb ledger_tables))) /\
  In (pending_record 1 1 1)
    (attendance_tbl (fst (fst (sync_pending_attendance demo_transport
                                 (tdb (fst (delete_student ledger_tables 1))))))).
Proof.
  assert (H : NoDup (map a_id (attendance_tbl (tdb ledger_tables))))
    by (simpl; repeat constructor; simpl; lia).
  split; [exact H|].
  apply (delete_student_orphans loads_one demo_transport ledger_tables 1 H);
    [simpl; auto | reflexivity].
Defined.

Lemma telegram_bot_unconfigured_witness :
  (get_setting no_tables "telegram_bot_token" = None \/
   get_setting no_tables "telegram_bot_token" = Some "") /\
  test_connection (snd (telegram_bot_init no_tables)) "Attendance" =
    (false, "Bot token is not configured").
Proof.
  assert (H : get_setting no_tables "telegram_bot_token" = None \/
              get_setting no_tables "telegram_bot_token" = Some "") by (left; reflexivity).
  split; [exact H|].
  apply (proj1 (telegram_bot_unconfigured no_tables "Attendance" H)).
Defined.

Lemma blank_token_checks_disagree_witness :
  py_strip " " = "" /\
  send_message {| bot_token := Some " "; chat_id := Some "123" |} "Attendance" =
    (true, "Message sent successfully (demo mode)").
Proof.
  assert (Hs : py_strip " " = "") by reflexivity.
  split; [exact Hs|].
  apply (proj1 (blank_token_checks_disagree {| bot_token := Some " "; chat_id := Some "123" |}
                  "Attendance" " " eq_refl ltac:(discriminate) Hs eq_refl)).
Defined.

Lemma update_settings_empty_token_witness :
  py_not_str (Some "") = true /\
  bot_token (snd (fst (update_settings (create_tables no_tables)
                         {| bot_token := Some "abc"; chat_id := Some "1" |} (Some "") None))) =
    Some "abc".
Proof.
  assert (H : py_not_str (Some "") = true) by reflexivity.
  split; [exact H|].
  apply (proj1 (update_settings_empty_token (create_tables no_tables)
                  {| bot_token := Some "abc"; chat_id := Some "1" |} (Some "") None H)).
Defined.

Lemma update_settings_persist_witness :
  "abc" <> "" /\ "1" <> "" /\
  snd (telegram_bot_init
         (fst (fst (update_settings (create_tables no_tables)
                      {| bot_token := None; chat_id := None |} (Some "abc") (Some "1"))))) =
    {| bot_token := Some "abc"; chat_id := Some "1" |}.
Proof.
  assert (H1 : "abc" <> "") by discriminate.
  assert (H2 : "1" <> "") by discriminate.
  split; [exact H1|]; split; [exact H2|].
  rewrite (proj2 (proj2 (update_settings_persist (create_tables no_tables)
                           {| bot_token := None; chat_id := None |} "abc" "1" H1 H2))).
  reflexivity.
Defined.

Lemma take_attendance_upload_marks_witness :
  ledger_ok empty_db /\
  exists db',
    take_attendance_upload unit (fun _ => one_face) empty_db empty_gallery tt (3 # 5)
      (Some 1%Z) (fun _ => ("2024-01-10", "09:00:00")) = Some (db', (1%nat, 0%nat)).
Proof.
  assert (Hok : ledger_ok empty_db) by (split; simpl; constructor).
  split; [exact Hok|].
  destruct (take_attendance_upload_marks unit (fun _ => one_face) empty_db empty_gallery tt
              (3 # 5) 1 (fun _ => ("2024-01-10", "09:00:00")) "2024-01-10"
              ltac:(lia) Hok ltac:(simpl; lia) ltac:(discriminate) ltac:(intros; reflexivity))
    as [db' [E _]].
  exists db'; exact E.
Defined.

Lemma mark_attendance_frame_witness :
  ledger_ok empty_db /\
  ledger_ok (fst (mark_attendance empty_db 1 1 "present" false "2024-01-10" "09:00:00")).
Proof.
  assert (Hok : ledger_ok empty_db) by (split; simpl; constructor).
  split; [exact Hok|].
  apply (proj1 (proj2 (mark_attendance_frame empty_db 1 1 "present" false "2024-01-10"
                         "09:00:00" Hok))).
Defined.
